(** * BugBountyKE-KSP API client: a shallow embedding of
      [bugbounty_ksp/api/client.py], [exceptions.py] and [models.py].

    Python objects are dynamically typed, so arguments and decoded JSON
    bodies are elements of one type [value].  The HTTP transport
    ([requests.Session.request]) is an oracle [server]; every call that
    reaches it is appended to a log, so "no network activity" is the
    statement that the log did not grow. *)

From Stdlib Require Import ZArith String Ascii List Bool Lia DecimalString.
From stdpp Require Import base gmap strings list fin_maps.

Set Warnings "-register-all".
Local Open Scope string_scope.
Local Open Scope Z_scope.

(** ** Python values *)

(** The values that [json] decoding can produce and that callers pass in.
    Dictionaries keep insertion order, as in Python; characters are code
    points below 256; floating point numbers are left out. *)
Inductive value : Type :=
  | VNone
  | VBool (b : bool)
  | VInt (z : Z)
  | VStr (s : string)
  | VBytes (b : list Byte.byte)
  | VList (l : list value)
  | VDict (kvs : list (string * value)).

(** [bool(v)]: the truth value tested by [if v] and [not v]. *)
Definition truthy (v : value) : bool :=
  match v with
  | VNone => false
  | VBool b => b
  | VInt z => negb (z =? 0)
  | VStr s => negb (String.eqb s "")
  | VBytes b => match b with [] => false | _ => true end
  | VList l => match l with [] => false | _ => true end
  | VDict kvs => match kvs with [] => false | _ => true end
  end.

(** [isinstance(v, str)] and [isinstance(v, dict)]. *)
Definition isinstance_str (v : value) : bool :=
  match v with VStr _ => true | _ => false end.

Definition isinstance_dict (v : value) : bool :=
  match v with VDict _ => true | _ => false end.

(** [d.get(key)] on the items of a dictionary. *)
Fixpoint dict_lookup (kvs : list (string * value)) (key : string) : option value :=
  match kvs with
  | [] => None
  | (k, v) :: rest => if String.eqb k key then Some v else dict_lookup rest key
  end.

(** [s.startswith(p)]. *)
Definition startswith (s p : string) : bool := String.prefix p s.

(** [s.rstrip("/")]: every trailing slash is removed. *)
Fixpoint rstrip_slash (s : string) : string :=
  match s with
  | EmptyString => EmptyString
  | String c rest =>
      match rstrip_slash rest with
      | EmptyString => if Ascii.eqb c "/"%char then EmptyString else String c EmptyString
      | r => String c r
      end
  end.

(** [str(n)] for an integer. *)
Definition str_int (z : Z) : string := NilZero.string_of_int (Z.to_int z).

(** [sep.join(parts)]. *)
Fixpoint join (sep : string) (parts : list string) : string :=
  match parts with
  | [] => ""
  | [p] => p
  | p :: rest => p +:+ sep +:+ join sep rest
  end.

(** The double quote character, code point 34. *)
Definition dquote : ascii := ascii_of_N 34.

Definition hex_digit (n : N) : ascii :=
  match n with
  | 0 => "0" | 1 => "1" | 2 => "2" | 3 => "3" | 4 => "4" | 5 => "5"
  | 6 => "6" | 7 => "7" | 8 => "8" | 9 => "9" | 10 => "a" | 11 => "b"
  | 12 => "c" | 13 => "d" | 14 => "e" | _ => "f"
  end%N%char.

Definition hex2 (c : ascii) : string :=
  let n := N_of_ascii c in
  String (hex_digit (n / 16)) (String (hex_digit (n mod 16)) "").

(** ** [json.dumps] with its default arguments
    ([ensure_ascii=True], separators [", "] and [": "]). *)

Definition json_escape_char (c : ascii) : string :=
  let n := N_of_ascii c in
  if (n =? 34)%N then "\" +:+ String c ""
  else if (n =? 92)%N then "\\"
  else if (n =? 8)%N then "\b"
  else if (n =? 12)%N then "\f"
  else if (n =? 10)%N then "\n"
  else if (n =? 13)%N then "\r"
  else if (n =? 9)%N then "\t"
  else if ((32 <=? n) && (n <=? 126))%N then String c ""
  else "\u00" +:+ hex2 c.

Fixpoint json_escape (s : string) : string :=
  match s with
  | EmptyString => ""
  | String c rest => json_escape_char c +:+ json_escape rest
  end.

Definition json_quote (s : string) : string :=
  String dquote (json_escape s) +:+ String dquote "".

(** [json.dumps(v)]; [None] stands for the [TypeError] that [bytes]
    raise ("Object of type bytes is not JSON serializable"). *)
Fixpoint json_dumps (v : value) : option string :=
  match v with
  | VNone => Some "null"
  | VBool true => Some "true"
  | VBool false => Some "false"
  | VInt z => Some (str_int z)
  | VStr s => Some (json_quote s)
  | VBytes _ => None
  | VList l =>
      (fix elems (l : list value) : option (list string) :=
         match l with
         | [] => Some []
         | x :: rest =>
             match json_dumps x, elems rest with
             | Some sx, Some srest => Some (sx :: srest)
             | _, _ => None
             end
         end) l ≫= λ parts, Some ("[" +:+ join ", " parts +:+ "]")
  | VDict kvs =>
      (fix items (kvs : list (string * value)) : option (list string) :=
         match kvs with
         | [] => Some []
         | (k, x) :: rest =>
             match json_dumps x, items rest with
             | Some sx, Some srest => Some ((json_quote k +:+ ": " +:+ sx) :: srest)
             | _, _ => None
             end
         end) kvs ≫= λ parts, Some ("{" +:+ join ", " parts +:+ "}")
  end.

(** ** [repr] and [str], used by the f-strings that build messages *)

Definition contains (c : N) (codes : list N) : bool :=
  existsb (N.eqb c) codes.

(** The quote [repr] picks: a double quote only when the text has a single
    quote and no double quote. *)
Definition repr_quote (codes : list N) : N :=
  if contains 39 codes && negb (contains 34 codes) then 34%N else 39%N.

(** Code points of Latin-1 that [str.isprintable] rejects. *)
Definition latin1_unprintable (n : N) : bool :=
  ((128 <=? n) && (n <=? 160) || (n =? 173))%N.

Definition repr_char (is_bytes : bool) (quote n : N) : string :=
  let c := ascii_of_N n in
  if ((n =? quote) || (n =? 92))%N then String (ascii_of_N 92) (String c "")
  else if (n =? 9)%N then "\t"
  else if (n =? 10)%N then "\n"
  else if (n =? 13)%N then "\r"
  else if ((n <? 32) || (n =? 127))%N then "\x" +:+ hex2 c
  else if (n <? 127)%N then String c ""
  else if is_bytes || latin1_unprintable n then "\x" +:+ hex2 c
  else String c "".

Definition repr_text (is_bytes : bool) (codes : list N) : string :=
  let q := repr_quote codes in
  String (ascii_of_N q)
    (fold_right (λ n acc, repr_char is_bytes q n +:+ acc)
                (String (ascii_of_N q) "") codes).

Definition codes_of_string (s : string) : list N :=
  map N_of_ascii (list_ascii_of_string s).

Fixpoint py_repr (v : value) : string :=
  match v with
  | VNone => "None"
  | VBool true => "True"
  | VBool false => "False"
  | VInt z => str_int z
  | VStr s => repr_text false (codes_of_string s)
  | VBytes b => "b" +:+ repr_text true (map Byte.to_N b)
  | VList l => "[" +:+ join ", " (map py_repr l) +:+ "]"
  | VDict kvs =>
      "{" +:+ join ", "
        (map (λ kv, repr_text false (codes_of_string (fst kv)) +:+ ": "
                      +:+ py_repr (snd kv)) kvs) +:+ "}"
  end.

(** [str(v)], which is what [f"{v}"] inserts. *)
Definition py_str (v : value) : string :=
  match v with
  | VStr s => s
  | _ => py_repr v
  end.

(** ** Exceptions ([exceptions.py]) *)

(** The classes of [exceptions.py]; all but [APIError] subclass it and add
    nothing. *)
Inductive ErrorClass : Type :=
  | APIError
  | AuthenticationError
  | ValidationError
  | RateLimitError
  | NotFoundError
  | NetworkError.

(** The subclasses of [requests.RequestException] that the handlers of
    [_request] tell apart, in the order of its [except] clauses. *)
Inductive RequestsClass : Type :=
  | Timeout
  | ConnectionError
  | JSONDecodeError
  | OtherRequestException.

(** Whatever a call can raise: an error of this package with the three
    attributes [APIError.__init__] stores, an exception of [requests]
    with its text, or a built-in error of the interpreter. *)
Inductive exn : Type :=
  | Raised (cls : ErrorClass) (message : string)
           (status_code : option Z) (response : option value)
  | RequestException (cls : RequestsClass) (text : string)
  | AttributeError
  | KeyError (key : string)
  | TypeError.

Definition error_class (e : exn) : option ErrorClass :=
  match e with Raised cls _ _ _ => Some cls | _ => None end.

Definition error_status_code (e : exn) : option Z :=
  match e with Raised _ _ sc _ => sc | _ => None end.

Definition error_response (e : exn) : option value :=
  match e with Raised _ _ _ r => r | _ => None end.

(** ** Result records ([models.py]); the fields hold whatever the decoded
    body held, the dataclasses check no types. *)

Module Publish.
Record PublishResponse : Type := mkPublishResponse {
  success : bool;
  article_id : value;
  published_id : value;
  web_url : value;
  images : value;
  created_at : value
}.
End Publish.
Export Publish (PublishResponse, mkPublishResponse).

Module Delete.
Record DeleteResponse : Type := mkDeleteResponse {
  success : bool;
  article_id : value;
  published_id : value;
  deleted_at : value;
  archived : value
}.
End Delete.
Export Delete (DeleteResponse, mkDeleteResponse).

(** ** The transport *)

(** What [requests] hands back: the status, the raw text and the result
    of [response.json()]: the decoded body, or the text of the
    [JSONDecodeError] it raises. *)
Module Response.
Record t : Type := mk {
  status_code : Z;
  text : string;
  json : string + value
}.
End Response.

(** The keyword arguments of one [Session.request] call.  [headers] are
    the ones the session was given when it was built. *)
Module Call.
Record t : Type := mk {
  method : string;
  url : string;
  headers : list (string * string);
  json : option value;
  data : option value;
  files : option (gmap string (string * list Byte.byte));
  timeout : Z;
  verify : bool
}.
End Call.

(** The arguments of one [_request] call. *)
Module Args.
Record t : Type := mk {
  method : string;
  endpoint : string;
  data : option value;
  files : option (gmap string (string * list Byte.byte));
  timeout : Z
}.
End Args.

(** A call either comes back with a response or raises inside [requests]. *)
Inductive outcome : Type :=
  | Responds (r : Response.t)
  | Fails (cls : RequestsClass) (text : string).

(** The remote side: its answer may depend on the calls made so far. *)
Definition Server : Type := list Call.t → Call.t → outcome.

(** ** Computations: the log of transport calls is threaded through, and
    a computation ends in a value or in a raised exception. *)

Definition M (A : Type) : Type := list Call.t → (exn + A) * list Call.t.

Definition ret {A} (a : A) : M A := λ log, (inr a, log).
Definition raise {A} (e : exn) : M A := λ log, (inl e, log).
Definition bind {A B} (m : M A) (k : A → M B) : M B :=
  λ log, match m log with
         | (inl e, log') => (inl e, log')
         | (inr a, log') => k a log'
         end.

(** [try: m  except ...: h e]; [h] answers [None] for the exceptions that
    no clause matches. *)
Definition try_except {A} (m : M A) (h : exn → option (M A)) : M A :=
  λ log, match m log with
         | (inl e, log') =>
             match h e with
             | Some handler => handler log'
             | None => (inl e, log')
             end
         | r => r
         end.

Notation "'let*' x ':=' m 'in' k" := (bind m (λ x, k))
  (at level 10, x name, m at level 100, k at level 200, only parsing).

(** [Session.request]: the call is logged and the server answers. *)
Definition session_request (server : Server) (c : Call.t) : M Response.t :=
  λ log, match server log c with
         | Responds r => (inr r, (log ++ [c])%list)
         | Fails cls text => (inl (RequestException cls text), (log ++ [c])%list)
         end.

Definition lift {A} (r : exn + A) : M A := λ log, (r, log).

(** ** The client ([client.py]) *)

Definition DEFAULT_API_URL : string := "https://api.bugbounty-ksp.com".
Definition REQUEST_TIMEOUT : Z := 30.
Definition MAX_RETRIES : Z := 3.

(** The attributes [__init__] sets; the session carries [headers]. *)
Record Client : Type := mkClient {
  api_key : string;
  api_url : string;
  verify_ssl : bool;
  headers : list (string * string)
}.

(** [result[key]]: only a dictionary can be indexed by a string. *)
Definition getitem (v : value) (key : string) : exn + value :=
  match v with
  | VDict kvs =>
      match dict_lookup kvs key with
      | Some x => inr x
      | None => inl (KeyError key)
      end
  | _ => inl TypeError
  end.

(** [result.get(key, dflt)]: only a dictionary has [get]. *)
Definition get_default (v : value) (key : string) (dflt : value) : exn + value :=
  match v with
  | VDict kvs => inr (default dflt (dict_lookup kvs key))
  | _ => inl AttributeError
  end.

(** [response.json()]. *)
Definition response_json (response : Response.t) : exn + value :=
  match Response.json response with
  | inr v => inr v
  | inl text => inl (RequestException JSONDecodeError text)
  end.

Definition _handle_response_errors (response : Response.t) : exn + unit :=
  let code := Response.status_code response in
  if code <? 400 then inr tt
  else
    let error_data :=
      match response_json response with
      | inr v => v
      | inl _ => VDict [("error", VStr (Response.text response))]
      end in
    match get_default error_data "error" (VStr ("HTTP " +:+ str_int code)) with
    | inl e => inl e
    | inr error_message =>
        if code =? 401 then
          inl (Raised AuthenticationError
                 ("Unauthorized: " +:+ py_str error_message +:+ ". Check your API key.")
                 (Some 401) (Some error_data))
        else if code =? 403 then
          inl (Raised AuthenticationError
                 ("Forbidden: " +:+ py_str error_message +:+ ". Check your permissions.")
                 (Some 403) (Some error_data))
        else if code =? 404 then
          inl (Raised NotFoundError
                 ("Not found: " +:+ py_str error_message)
                 (Some 404) (Some error_data))
        else if (code =? 400) || (code =? 422) then
          inl (Raised ValidationError
                 ("Validation error: " +:+ py_str error_message)
                 (Some code) (Some error_data))
        else if code =? 429 then
          inl (Raised RateLimitError
                 "Rate limit exceeded. Please try again later."
                 (Some 429) (Some error_data))
        else
          inl (Raised APIError
                 ("API error: " +:+ py_str error_message)
                 (Some code) (Some error_data))
    end.

(** The name of the multipart part of one image, [f"images[{filename}]"]. *)
Definition part_name (filename : string) : string :=
  "images[" +:+ filename +:+ "]".

(** [images or {}] on a dictionary: an empty one is replaced by a fresh
    empty one. *)
Definition or_empty (images : gmap string (list Byte.byte))
  : gmap string (list Byte.byte) :=
  if decide (images = ∅) then ∅ else images.

(** The loop of [publish_article] that fills [files]. *)
Definition build_files (images : gmap string (list Byte.byte))
  : gmap string (string * list Byte.byte) :=
  map_fold (λ filename file_bytes files,
              <[part_name filename := (filename, file_bytes)]> files)
           ∅ (or_empty images).

(** [files if files else None]. *)
Definition files_or_none (files : gmap string (string * list Byte.byte))
  : option (gmap string (string * list Byte.byte)) :=
  if decide (files = ∅) then None else Some files.

(** The form fields or JSON body of a publish call. *)
Definition publish_fields (title content file_path : value) (dumped : string)
  : value :=
  VDict [("title", title); ("content", content);
         ("frontmatter", VStr dumped); ("file_path", file_path)].

(** The [data] dictionary of [publish_article]; [json.dumps] may raise. *)
Definition publish_data (title content frontmatter file_path : value)
  : exn + value :=
  match json_dumps frontmatter with
  | Some dumped =>
      inr (publish_fields title content file_path dumped)
  | None => inl TypeError
  end.

(** The arguments with which each operation calls [_request]. *)
Definition publish_args (data : value) (images : gmap string (list Byte.byte))
  : Args.t :=
  Args.mk "POST" "/api/articles/publish" (Some data)
          (files_or_none (build_files images)) REQUEST_TIMEOUT.

Definition get_args (published_id : string) : Args.t :=
  Args.mk "GET" ("/api/articles/" +:+ published_id) None None REQUEST_TIMEOUT.

Definition delete_args (published_id : string) : Args.t :=
  Args.mk "DELETE" ("/api/articles/" +:+ published_id) None None REQUEST_TIMEOUT.

Definition verify_args : Args.t :=
  Args.mk "GET" "/api/auth/verify" None None 5.

(** [if files:] on an optional dictionary. *)
Definition files_truthy (files : option (gmap string (string * list Byte.byte))) : bool :=
  match files with
  | Some f => negb (bool_decide (f = ∅))
  | None => false
  end.

(** The keyword arguments [_request] hands to the session. *)
Definition request_call (self : Client) (a : Args.t) : Call.t :=
  let url := api_url self +:+ Args.endpoint a in
  if files_truthy (Args.files a) then
    {| Call.method := Args.method a; Call.url := url;
       Call.headers := headers self;
       Call.json := None; Call.data := Args.data a;
       Call.files := Args.files a;
       Call.timeout := Args.timeout a; Call.verify := verify_ssl self |}
  else
    {| Call.method := Args.method a; Call.url := url;
       Call.headers := headers self;
       Call.json := Args.data a; Call.data := None;
       Call.files := None;
       Call.timeout := Args.timeout a; Call.verify := verify_ssl self |}.

(** The attributes [__init__] assigns once the key has passed its checks. *)
Definition new_client (key api_url : string) (verify_ssl : bool) : Client :=
  {| api_key := key;
     api_url := rstrip_slash api_url;
     verify_ssl := verify_ssl;
     headers := [("Authorization", "Bearer " +:+ key);
                 ("User-Agent", "BugBountyKSP-SDK/1.0");
                 ("Accept", "application/json")] |}.

Section Client.

(** The remote service the session talks to. *)
Variable server : Server.

Definition _request (self : Client) (a : Args.t) : M Response.t :=
  try_except
    (let* response := session_request server (request_call self a) in
     let* _ := lift (_handle_response_errors response) in
     ret response)
    (λ e, match e with
          | RequestException Timeout _ =>
              Some (raise (Raised NetworkError
                ("Request timeout after " +:+ str_int (Args.timeout a) +:+ "s")
                None None))
          | RequestException ConnectionError text =>
              Some (raise (Raised NetworkError
                ("Connection failed: " +:+ text) None None))
          | RequestException _ text =>
              Some (raise (Raised NetworkError
                ("Request failed: " +:+ text) None None))
          | _ => None
          end).

Definition _verify_authentication (self : Client) : M unit :=
  try_except
    (let* response := _request self verify_args in
     if negb (Response.status_code response =? 200) then
       raise (Raised AuthenticationError
         "Invalid API key. Verify at: https://bugbounty-ksp.com/settings/api-keys"
         None None)
     else ret tt)
    (λ e, match e with
          | RequestException _ text =>
              Some (raise (Raised NetworkError
                ("Failed to verify authentication: " +:+ text) None None))
          | _ => None
          end).

Definition __init__ (api_key : value) (api_url : string) (verify_ssl : bool)
  : M Client :=
  if negb (truthy api_key) || negb (isinstance_str api_key) then
    raise (Raised ValidationError "API key must be a non-empty string" None None)
  else
    match api_key with
    | VStr key =>
        if negb (startswith key "sk_") then
          raise (Raised ValidationError
            "Invalid API key format. Must start with 'sk_'" None None)
        else
          let self := new_client key api_url verify_ssl in
          let* _ := _verify_authentication self in
          ret self
    | _ => raise AttributeError
    end.

Definition publish_article (self : Client)
    (title content frontmatter : value)
    (images : gmap string (list Byte.byte)) (file_path : value)
  : M PublishResponse :=
  if negb (truthy title) || negb (truthy content) then
    raise (Raised ValidationError "Title and content are required" None None)
  else if negb (isinstance_dict frontmatter) then
    raise (Raised ValidationError "Frontmatter must be a dictionary" None None)
  else
    let* data := lift (publish_data title content frontmatter file_path) in
    let* response := _request self (publish_args data images) in
    let* result := lift (response_json response) in
    let* r_article_id := lift (getitem result "article_id") in
    let* r_published_id := lift (getitem result "published_id") in
    let* r_web_url := lift (getitem result "web_url") in
    let* r_images := lift (get_default result "images" (VDict [])) in
    let* r_created_at := lift (getitem result "created_at") in
    ret {| Publish.success := true;
           Publish.article_id := r_article_id;
           Publish.published_id := r_published_id;
           Publish.web_url := r_web_url;
           Publish.images := r_images;
           Publish.created_at := r_created_at |}.

Definition get_article (self : Client) (published_id : string) : M value :=
  let* response := _request self (get_args published_id) in
  lift (response_json response).

Definition delete_article (self : Client) (published_id : string)
  : M DeleteResponse :=
  let* response := _request self (delete_args published_id) in
  let* result := lift (response_json response) in
  let* r_article_id := lift (getitem result "article_id") in
  let* r_published_id := lift (getitem result "published_id") in
  let* r_deleted_at := lift (getitem result "deleted_at") in
  let* r_archived := lift (get_default result "archived" (VBool true)) in
  ret {| Delete.success := true;
         Delete.article_id := r_article_id;
         Delete.published_id := r_published_id;
         Delete.deleted_at := r_deleted_at;
         Delete.archived := r_archived |}.

End Client.

(** The calls the operations of the client make to [_request]. *)
Inductive client_call : Args.t → Prop :=
  | call_verify : client_call verify_args
  | call_publish data images : client_call (publish_args data images)
  | call_get published_id : client_call (get_args published_id)
  | call_delete published_id : client_call (delete_args published_id).

(** ** Test doubles: servers with a scripted answer *)

Definition always (o : outcome) : Server := λ _ _, o.

Definition demo_client : Client :=
  {| api_key := "sk_test_123456789";
     api_url := DEFAULT_API_URL;
     verify_ssl := true;
     headers := [("Authorization", "Bearer sk_test_123456789");
                 ("User-Agent", "BugBountyKSP-SDK/1.0");
                 ("Accept", "application/json")] |}.

Definition png1 : list Byte.byte := [Byte.x89; Byte.x50; Byte.x4e; Byte.x47].

Definition publish_body : value :=
  VDict [("article_id", VStr "art_1");
         ("published_id", VStr "pub_1");
         ("web_url", VStr "https://x/pub_1");
         ("created_at", VStr "2024-01-01T00:00:00Z")].


(** A 404 whose body is the JSON array [[]]. *)
Definition not_found_array : Response.t :=
  Response.mk 404 "[]" (inr (VList [])).

Definition redirect_response : Response.t :=
  Response.mk 302 "" (inl "Expecting value: line 1 column 1 (char 0)").

Definition server_error_response : Response.t :=
  Response.mk 500 "Internal server error"
              (inl "Expecting value: line 1 column 1 (char 0)").

Definition probe_not_found : Response.t :=
  Response.mk 404 "" (inr (VDict [("error", VStr "Not found")])).

Definition demo_frontmatter : value :=
  VDict [("title", VStr "Test"); ("tags", VList [VStr "bug-bounty"])].

Definition demo_dumped : string :=
  Eval vm_compute in default "" (json_dumps demo_frontmatter).

Definition demo_images : gmap string (list Byte.byte) :=
  {[ "screenshot.png" := png1 ]}.

Definition publish_ok : Response.t :=
  Response.mk 200 "" (inr publish_body).

Definition delete_body : value :=
  VDict [("article_id", VStr "art_123abc");
         ("published_id", VStr "pub_456def");
         ("deleted_at", VStr "2024-02-04T13:00:00Z")].

Definition delete_ok : Response.t :=
  Response.mk 200 "" (inr delete_body).

Definition html_page : Response.t :=
  Response.mk 200 "<html>OK</html>" (inl "Expecting value: line 1 column 1 (char 0)").

Definition partial_body : list (string * value) :=
  [("article_id", VStr "art_1"); ("web_url", VStr "https://x/pub_1")].

Definition hard_delete_body : list (string * value) :=
  [("article_id", VStr "art_123abc");
   ("published_id", VStr "pub_456def");
   ("deleted_at", VStr "2024-02-04T13:00:00Z");
   ("archived", VBool false)].

Definition probe_ok : Response.t :=
  Response.mk 200 "" (inr (VDict [("authenticated", VBool true)])).

(** ** The classification table of the specification *)

(** Status code to error kind, as the table reads: 401 and 403 are
    Authentication, 404 NotFound, 400 and 422 Validation, 429 RateLimit,
    anything else Generic-API. *)
Definition table_kind (code : Z) : ErrorClass :=
  if (code =? 401) || (code =? 403) then AuthenticationError
  else if code =? 404 then NotFoundError
  else if (code =? 400) || (code =? 422) then ValidationError
  else if code =? 429 then RateLimitError
  else APIError.

(** The payload an error carries: the decoded body, or the raw text
    wrapped under the key [error] when the body does not decode. *)
Definition error_payload (r : Response.t) : value :=
  match Response.json r with
  | inr v => v
  | inl _ => VDict [("error", VStr (Response.text r))]
  end.

(** The body is a JSON object, or is not JSON at all. *)
Definition object_or_undecodable (r : Response.t) : bool :=
  match Response.json r with
  | inr (VDict _) => true
  | inr _ => false
  | inl _ => true
  end.

(** ** Strings as Python slices them *)

(** [len(s)]. *)
Definition len (s : string) : Z := Z.of_nat (String.length s).

(** [s[start:]]: a negative start counts from the end, and the start is
    clamped to the string. *)
Definition slice_from (s : string) (start : Z) : string :=
  let n := len s in
  let start := if start <? 0 then Z.max 0 (start + n) else Z.min start n in
  string_of_list_ascii (drop (Z.to_nat start) (list_ascii_of_string s)).

(** [c * n] for a one-character string [c]: empty when [n] is not
    positive. *)
Definition repeat_char (c : ascii) (n : Z) : string :=
  string_of_list_ascii (replicate (Z.to_nat n) c).

(** [c.isalnum()] on code points below 256: the ASCII letters and digits,
    and the letters and numeric signs of Latin-1. *)
Definition isalnum (c : ascii) : bool :=
  let n := N_of_ascii c in
  ((48 <=? n) && (n <=? 57) || (65 <=? n) && (n <=? 90)
   || (97 <=? n) && (n <=? 122)
   || (n =? 170) || (n =? 178) || (n =? 179) || (n =? 181)
   || (n =? 185) || (n =? 186) || (188 <=? n) && (n <=? 190)
   || (192 <=? n) && (n <=? 214) || (216 <=? n) && (n <=? 246)
   || (248 <=? n) && (n <=? 255))%N.

(** [c.isspace()] on code points below 256. *)
Definition isspace (c : ascii) : bool :=
  let n := N_of_ascii c in
  ((9 <=? n) && (n <=? 13) || (28 <=? n) && (n <=? 32)
   || (n =? 133) || (n =? 160))%N.

Fixpoint lstrip_chars (l : list ascii) : list ascii :=
  match l with
  | c :: rest => if isspace c then lstrip_chars rest else l
  | [] => []
  end.

(** [s.strip()]. *)
Definition strip (s : string) : string :=
  string_of_list_ascii
    (rev (lstrip_chars (rev (lstrip_chars (list_ascii_of_string s))))).

(** ** Key generation ([key_generator.py]) *)

Definition PREFIX : string := "sk_".
Definition TEST_PREFIX : string := "sk_test_".
Definition KEY_LENGTH : nat := 32.

(** [string.ascii_letters + string.digits]. *)
Definition CHARSET : list ascii :=
  list_ascii_of_string
    "abcdefghijklmnopqrstuvwxyzABCDEFGHIJKLMNOPQRSTUVWXYZ0123456789".

(** [secrets.choice(seq)], that is [seq[randbelow(len(seq))]]: [draw] is
    what the system's random source yields, reduced below the length. *)
Definition secrets_choice (seq : list ascii) (draw : nat) : ascii :=
  nth (draw mod length seq)%nat seq "000"%char.

(** [APIKeyGenerator.generate]; [draws i] is the random source at the
    [i]-th character. *)
Definition generate (test : bool) (draws : nat → nat) : string :=
  let prefix := if test then TEST_PREFIX else PREFIX in
  let random_part :=
    string_of_list_ascii
      (map (λ i, secrets_choice CHARSET (draws i)) (seq 0 KEY_LENGTH)) in
  prefix +:+ random_part.

(** [APIKeyGenerator.generate_batch]; [draws j] is the random source of
    the [j]-th key, and [range(count)] is empty for a count below 1. *)
Definition generate_batch (count : Z) (test : bool) (draws : nat → nat → nat)
  : list string :=
  map (λ j, generate test (draws j)) (seq 0 (Z.to_nat count)).

Definition is_valid_format (key : value) : bool :=
  match key with
  | VStr key =>
      if negb (truthy (VStr key)) then false
      else if negb (startswith key PREFIX) then false
      else if len key <? len PREFIX + 8 then false
      else
        let random_part := slice_from key (len PREFIX) in
        if negb (forallb isalnum (list_ascii_of_string random_part)) then false
        else true
  | _ => false
  end.

Definition mask_key (key : string) (visible_chars : Z) : string :=
  if negb (truthy (VStr key)) then ""
  else if len key <=? visible_chars then repeat_char "*" (len key)
  else
    let prefix_len := len PREFIX in
    if len key <=? prefix_len + visible_chars then key
    else
      let visible_end := slice_from key (- visible_chars) in
      let hidden_len := len key - prefix_len - visible_chars in
      let masked_part := repeat_char "*" hidden_len in
      PREFIX +:+ masked_part +:+ visible_end.

(** [APIKeyGenerator.get_key_info]; [now] is [datetime.now().isoformat()]
    and [mask_key] gets its default of 4 visible characters. *)
Definition get_key_info (key : string) (now : string) : value :=
  let is_valid := is_valid_format (VStr key) in
  let info :=
    [("is_valid", VBool is_valid);
     ("length", VInt (len key));
     ("masked", VStr (mask_key key 4));
     ("created_at", VStr now)] in
  if is_valid then
    VDict (info ++ [("prefix", VStr PREFIX); ("type", VStr "secret_key")]
                ++ [("environment",
                     VStr (if startswith key TEST_PREFIX
                           then "test" else "production"))])%list
  else
    VDict (info ++ [("type", VStr "invalid"); ("prefix", VNone)])%list.

Definition generate_api_key (test : bool) (draws : nat → nat) : string :=
  generate test draws.

Definition generate_api_keys (count : Z) (test : bool) (draws : nat → nat → nat)
  : list string :=
  generate_batch count test draws.

(** ** Validators ([utils/validators.py]) *)

Definition validate_api_key (api_key : value) : bool :=
  if negb (truthy api_key) || negb (isinstance_str api_key) then false
  else
    match api_key with
    | VStr key => startswith key "sk_" && (10 <? len key)
    | _ => false
    end.

Definition required_fields : list string :=
  ["title"; "tags"; "category"; "difficulty"; "author"].

Definition validate_frontmatter (frontmatter : value) : bool * string :=
  match frontmatter with
  | VDict kvs =>
      let missing :=
        filter (λ field, dict_lookup kvs field = None) required_fields in
      if negb (bool_decide (missing = [])) then
        (false, "Missing required fields: " +:+ join ", " missing)
      else if
        match dict_lookup kvs "title" with
        | Some (VStr title) => negb (truthy (VStr (strip title)))
        | _ => true
        end
      then (false, "Title must be a non-empty string")
      else
        match dict_lookup kvs "tags" with
        | Some (VList tags) =>
            if negb (forallb isinstance_str tags) then
              (false, "All tags must be strings")
            else (true, "")
        | _ => (false, "Tags must be a list")
        end
  | _ => (false, "Frontmatter must be a dictionary")
  end.

(** The first of [keys] that a dictionary lacks: the key whose
    [result[key]] raises first when they are read in that order. *)
Definition first_missing (keys : list string) (kvs : list (string * value))
  : option string :=
  List.find (λ key, bool_decide (dict_lookup kvs key = None)) keys.

(** The items of a dictionary, nothing for another value. *)
Definition dict_items (v : value) : list (string * value) :=
  match v with VDict kvs => kvs | _ => [] end.

(** The text [_request] gives a [NetworkError], by the class of the
    exception of [requests]. *)
Definition network_message (cls : RequestsClass) (text : string) (timeout : Z)
  : string :=
  match cls with
  | Timeout => "Request timeout after " +:+ str_int timeout +:+ "s"
  | ConnectionError => "Connection failed: " +:+ text
  | _ => "Request failed: " +:+ text
  end.

(** The keys the two decoders read with [result[key]], in the order in
    which they read them. *)
Definition publish_keys : list string :=
  ["article_id"; "published_id"; "web_url"; "created_at"].

Definition delete_keys : list string :=
  ["article_id"; "published_id"; "deleted_at"].

(** The part of an error message that comes from the response: the raw
    text when the body does not decode, else the [error] entry of the
    body, else [HTTP <code>]. *)
Definition error_detail (r : Response.t) : string :=
  match Response.json r with
  | inl _ => Response.text r
  | inr v =>
      py_str (default (VStr ("HTTP " +:+ str_int (Response.status_code r)))
                      (dict_lookup (dict_items v) "error"))
  end.

(** What a transport call owes to the client that makes it: its
    headers, its TLS flag, and a URL under its base URL. *)
Definition carries_settings (self : Client) (timeout : Z) (c : Call.t) : Prop :=
  Call.headers c = headers self ∧
  Call.verify c = verify_ssl self ∧
  Call.timeout c = timeout ∧
  ∃ endpoint, Call.url c = api_url self +:+ endpoint.

(** ** Vocabulary of the statements *)

(** Exactly one of two propositions holds. *)
Definition exactly_one (A B : Prop) : Prop := (A ∧ ¬ B) ∨ (¬ A ∧ B).

(** The log grew by calls that the dispatch built from a call of one of
    the operations. *)
Definition sends_client_calls (log log' : list Call.t) : Prop :=
  ∃ calls,
    log' = (log ++ calls)%list ∧
    Forall (λ c, ∃ self a, client_call a ∧ c = request_call self a) calls.

(** ** Proof automation *)

(** Case analysis on every status test [code =? n] of the goal. *)
Ltac split_code code :=
  repeat match goal with
         | |- context [code =? ?n] => destruct (Z.eqb_spec code n) as [->|]
         end.

(** Case analysis on every pending step of a chain of decoding steps. *)
Ltac step_decoding :=
  repeat match goal with
         | |- context [match ?x with inl _ => _ | inr _ => _ end] =>
             destruct x; simpl
         end.

(** * Properties *)

(** ** The built-ins on sample inputs *)

Example json_dumps_nested :
  json_dumps (VDict [("n", VList [VInt 1; VNone; VBool true; VInt (-5)])]) =
    Some ("{" +:+ String dquote "n" +:+ String dquote ": [1, null, true, -5]}").
Proof. reflexivity. Qed.

Example json_dumps_escapes :
  json_dumps (VStr (String (ascii_of_N 200) (String (ascii_of_N 10) "a\b"))) =
    Some (String dquote "\u00c8\na\\b" +:+ String dquote "").
Proof. reflexivity. Qed.

Example json_dumps_bytes : json_dumps (VList [VBytes [Byte.x41]]) = None.
Proof. reflexivity. Qed.

Example py_str_of_string : py_str (VStr "Article not found") = "Article not found".
Proof. reflexivity. Qed.

Example py_str_of_list :
  py_str (VList [VStr "x"; VBool true; VNone; VInt 60]) = "['x', True, None, 60]".
Proof. reflexivity. Qed.

Example py_repr_quotes :
  py_repr (VStr "it's") = String dquote "it's" +:+ String dquote "" ∧
  py_repr (VBytes [Byte.x00; Byte.x41; Byte.x09]) = "b'\x00A\t'".
Proof. split; reflexivity. Qed.

Example rstrip_slash_trailing :
  rstrip_slash "https://staging.api.example.com//" =
    "https://staging.api.example.com".
Proof. reflexivity. Qed.

Example rstrip_slash_inner : rstrip_slash "a/b" = "a/b".
Proof. reflexivity. Qed.

Example startswith_prefix :
  startswith "sk_test_123456789" "sk_" = true ∧
  startswith "invalid_key_123" "sk_" = false ∧
  startswith "sk" "sk_" = false.
Proof. repeat split; reflexivity. Qed.

Example part_name_example : part_name "screenshot.png" = "images[screenshot.png]".
Proof. reflexivity. Qed.

(** ** The error classification *)

Lemma handle_response_errors_success r :
  Response.status_code r < 400 → _handle_response_errors r = inr tt.
Proof.
  intros Hlt. unfold _handle_response_errors.
  destruct (Z.ltb_spec (Response.status_code r) 400); [done | lia].
Qed.

Lemma handle_response_errors_classifies r :
  400 ≤ Response.status_code r →
  object_or_undecodable r = true →
  ∃ message,
    _handle_response_errors r =
      inl (Raised (table_kind (Response.status_code r)) message
                  (Some (Response.status_code r)) (Some (error_payload r))).
Proof.
  destruct r as [code text body].
  unfold _handle_response_errors, table_kind, object_or_undecodable,
    error_payload, response_json.
  simpl. intros Hge Hbody.
  destruct (Z.ltb_spec code 400) as [Hlt|_]; [lia|].
  destruct body as [t|[]]; try discriminate; simpl;
    split_code code; simpl; try lia; eexists; reflexivity.
Qed.

(** A body that decodes to anything but an object makes the handler fail
    on [error_data.get]. *)
Lemma handle_response_errors_non_object r :
  400 ≤ Response.status_code r →
  object_or_undecodable r = false →
  _handle_response_errors r = inl AttributeError.
Proof.
  destruct r as [code text body].
  unfold _handle_response_errors, object_or_undecodable, response_json.
  simpl. intros Hge Hbody.
  destruct (Z.ltb_spec code 400) as [Hlt|_]; [lia|].
  destruct body as [t|[]]; try discriminate; reflexivity.
Qed.

(** The handler raises errors of this package or [AttributeError], never
    an exception of [requests]. *)
Lemma handle_response_errors_raises r e :
  _handle_response_errors r = inl e →
  e = AttributeError ∨ ∃ cls message status payload,
        e = Raised cls message status payload.
Proof.
  destruct r as [code text body].
  unfold _handle_response_errors, response_json. simpl.
  destruct (code <? 400); [discriminate|].
  destruct body as [t|[]]; simpl;
    try (intros [= <-]; by left);
    split_code code; simpl; intros [= <-]; right; eauto.
Qed.

(** ** The request dispatch *)

Section Dispatch.

Variable server : Server.
Variable self : Client.

(** Whatever happens, [_request] makes exactly one transport call. *)
Lemma request_log a log :
  (_request server self a log).2 = (log ++ [request_call self a])%list.
Proof.
  unfold _request, try_except, bind, session_request, lift, ret, raise.
  destruct (server log (request_call self a)) as [r|cls text].
  - destruct (_handle_response_errors r) as [e|[]] eqn:He; [|done].
    apply handle_response_errors_raises in He
      as [->|(c & m & st & pl & ->)]; done.
  - destruct cls; done.
Qed.

Lemma request_responds a log r :
  server log (request_call self a) = Responds r →
  _request server self a log =
    (match _handle_response_errors r with
     | inl e => inl e
     | inr _ => inr r
     end, (log ++ [request_call self a])%list).
Proof.
  intros Hr.
  unfold _request, try_except, bind, session_request, lift, ret, raise.
  rewrite Hr.
  destruct (_handle_response_errors r) as [e|[]] eqn:He; [|done].
  apply handle_response_errors_raises in He
    as [->|(c & m & st & pl & ->)]; done.
Qed.

Lemma request_success a log r :
  server log (request_call self a) = Responds r →
  Response.status_code r < 400 →
  _request server self a log = (inr r, (log ++ [request_call self a])%list).
Proof.
  intros Hr Hlt. rewrite (request_responds _ _ _ Hr).
  by rewrite handle_response_errors_success.
Qed.

(** Every failure inside [requests] comes out as a [NetworkError]. *)
Lemma request_fails a log cls text :
  server log (request_call self a) = Fails cls text →
  ∃ message,
    _request server self a log =
      (inl (Raised NetworkError message None None),
       (log ++ [request_call self a])%list).
Proof.
  intros Hf.
  unfold _request, try_except, bind, session_request, lift, ret, raise.
  rewrite Hf. destruct cls; eexists; reflexivity.
Qed.

End Dispatch.

(** With a body that is an object or does not decode, a status of 400 or
    more leaves [_request] through the error of the table, carrying the
    status and the body. *)
Lemma request_classifies server self a log r :
  server log (request_call self a) = Responds r →
  400 ≤ Response.status_code r →
  object_or_undecodable r = true →
  ∃ message,
    _request server self a log =
      (inl (Raised (table_kind (Response.status_code r)) message
                   (Some (Response.status_code r)) (Some (error_payload r))),
       (log ++ [request_call self a])%list).
Proof.
  intros Hr Hge Hbody. rewrite (request_responds _ _ _ _ _ Hr).
  destruct (handle_response_errors_classifies r Hge Hbody) as [m ->]. eauto.
Qed.

(** The same for the whole dispatch: a status of 400 or more with a body
    that decodes to something other than an object ends in
    [AttributeError], whatever the status. *)
Lemma request_non_object server self a log r :
  server log (request_call self a) = Responds r →
  400 ≤ Response.status_code r →
  object_or_undecodable r = false →
  _request server self a log =
    (inl AttributeError, (log ++ [request_call self a])%list).
Proof.
  intros Hr Hge Hbody. rewrite (request_responds _ _ _ _ _ Hr).
  by rewrite handle_response_errors_non_object.
Qed.

(** C1 (defect).  The table promises [NotFoundError] carrying 404 for
    every 404 response.  On a 404 whose body decodes to a JSON array the
    dispatch raises the built-in [AttributeError] from [error_data.get]
    instead: an exception with no kind of the table and no status code. *)
Theorem C1_non_object_body_escapes_table :
  Response.status_code not_found_array = 404 ∧
  table_kind 404 = NotFoundError ∧
  _request (always (Responds not_found_array)) demo_client
           (get_args "pub_1") [] =
    (inl AttributeError, [request_call demo_client (get_args "pub_1")]) ∧
  error_class AttributeError = None ∧
  error_status_code AttributeError = None.
Proof. repeat split; reflexivity. Qed.

(** ** Construction *)

Lemma startswith_truthy key :
  startswith key "sk_" = true → truthy (VStr key) = true.
Proof. by destruct key. Qed.

Section Construction.

Variable server : Server.
Variables (key api_url : string) (verify_ssl : bool).
Hypothesis Hkey : startswith key "sk_" = true.

Local Abbreviation self := (new_client key api_url verify_ssl).
Local Abbreviation probe := (request_call self verify_args).

Lemma init_runs_probe log :
  __init__ server (VStr key) api_url verify_ssl log =
    match _verify_authentication server self log with
    | (inl e, log') => (inl e, log')
    | (inr _, log') => (inr self, log')
    end.
Proof.
  unfold __init__. rewrite (startswith_truthy _ Hkey), Hkey. simpl.
  unfold bind, ret. by destruct (_verify_authentication _ _ _) as [[?|?] ?].
Qed.

Lemma init_probe_ok log r :
  server log probe = Responds r →
  Response.status_code r = 200 →
  __init__ server (VStr key) api_url verify_ssl log =
    (inr self, (log ++ [probe])%list).
Proof.
  intros Hr H200. rewrite init_runs_probe.
  unfold _verify_authentication, try_except, bind.
  rewrite (request_success _ _ _ _ _ Hr) by lia. by rewrite H200.
Qed.

Lemma init_probe_redirect log r :
  server log probe = Responds r →
  Response.status_code r ≠ 200 →
  Response.status_code r < 400 →
  ∃ message,
    __init__ server (VStr key) api_url verify_ssl log =
      (inl (Raised AuthenticationError message None None),
       (log ++ [probe])%list).
Proof.
  intros Hr Hne Hlt. rewrite init_runs_probe.
  unfold _verify_authentication, try_except, bind.
  rewrite (request_success _ _ _ _ _ Hr) by lia.
  destruct (Z.eqb_spec (Response.status_code r) 200); [lia|].
  simpl. eauto.
Qed.

Lemma init_probe_error log r :
  server log probe = Responds r →
  400 ≤ Response.status_code r →
  object_or_undecodable r = true →
  ∃ message,
    __init__ server (VStr key) api_url verify_ssl log =
      (inl (Raised (table_kind (Response.status_code r)) message
                   (Some (Response.status_code r)) (Some (error_payload r))),
       (log ++ [probe])%list).
Proof.
  intros Hr Hge Hbody. rewrite init_runs_probe.
  unfold _verify_authentication, try_except, bind.
  destruct (request_classifies _ _ _ _ _ Hr Hge Hbody) as [m ->]. eauto.
Qed.

Lemma init_probe_transport log cls text :
  server log probe = Fails cls text →
  ∃ message,
    __init__ server (VStr key) api_url verify_ssl log =
      (inl (Raised NetworkError message None None), (log ++ [probe])%list).
Proof.
  intros Hf. rewrite init_runs_probe.
  unfold _verify_authentication, try_except, bind.
  destruct (request_fails _ _ _ _ _ _ Hf) as [m ->]. eauto.
Qed.

End Construction.

(** Among the statuses of 400 and more, the table gives Authentication
    to 401 and 403 only. *)
Lemma table_kind_authentication code :
  table_kind code = AuthenticationError ↔ code = 401 ∨ code = 403.
Proof.
  unfold table_kind. split.
  - split_code code; simpl; (discriminate || lia || auto).
  - by intros [->| ->].
Qed.

(** C2 (as the code has it).  With a well-formed key, construction fails
    with Authentication when the probe is answered with a status other
    than 200 below 400; with the kind of the classification table, the
    status and the body when the status is 400 or more and the body is a
    JSON object or does not decode (so Authentication for 401 and 403,
    NotFound for 404, and so on); and with Network when the transport
    fails.  Each time the probe is the only call made. *)
Theorem C2_probe_failure_fails_construction
    server key api_url verify_ssl log :
  startswith key "sk_" = true →
  let self := new_client key api_url verify_ssl in
  let probe := request_call self verify_args in
  let result := __init__ server (VStr key) api_url verify_ssl log in
  (∀ r, server log probe = Responds r →
        Response.status_code r ≠ 200 → Response.status_code r < 400 →
        ∃ message,
          result = (inl (Raised AuthenticationError message None None),
                    (log ++ [probe])%list)) ∧
  (∀ r, server log probe = Responds r →
        400 ≤ Response.status_code r → object_or_undecodable r = true →
        ∃ message,
          result = (inl (Raised (table_kind (Response.status_code r)) message
                                (Some (Response.status_code r))
                                (Some (error_payload r))),
                    (log ++ [probe])%list)) ∧
  (∀ cls text, server log probe = Fails cls text →
        ∃ message,
          result = (inl (Raised NetworkError message None None),
                    (log ++ [probe])%list)).
Proof.
  intros Hkey self probe result. repeat split.
  - intros r. by apply init_probe_redirect.
  - intros r. by apply init_probe_error.
  - intros cls text. by apply init_probe_transport.
Qed.

(** The three cases of C2 on scripted servers: a redirect, a server
    error with a body that is not JSON, a refused connection. *)
Lemma C2_probe_failure_witness :
  let init server :=
    __init__ server (VStr "sk_test_123456789") DEFAULT_API_URL true [] in
  let probe :=
    request_call (new_client "sk_test_123456789" DEFAULT_API_URL true)
                 verify_args in
  (∃ message,
     init (always (Responds redirect_response)) =
       (inl (Raised AuthenticationError message None None), [probe])) ∧
  (∃ message,
     init (always (Responds server_error_response)) =
       (inl (Raised APIError message (Some 500)
               (Some (VDict [("error", VStr "Internal server error")]))),
        [probe])) ∧
  (∃ message,
     init (always (Fails ConnectionError "Connection failed")) =
       (inl (Raised NetworkError message None None), [probe])).
Proof.
  cbv zeta. repeat split.
  - destruct (C2_probe_failure_fails_construction
                (always (Responds redirect_response))
                "sk_test_123456789" DEFAULT_API_URL true [] eq_refl)
      as (Hredirect & _ & _).
    apply (Hredirect redirect_response eq_refl); simpl; lia.
  - destruct (C2_probe_failure_fails_construction
                (always (Responds server_error_response))
                "sk_test_123456789" DEFAULT_API_URL true [] eq_refl)
      as (_ & Herror & _).
    apply (Herror server_error_response eq_refl); [simpl; lia | reflexivity].
  - destruct (C2_probe_failure_fails_construction
                (always (Fails ConnectionError "Connection failed"))
                "sk_test_123456789" DEFAULT_API_URL true [] eq_refl)
      as (_ & _ & Hfails).
    apply (Hfails ConnectionError "Connection failed" eq_refl).
Defined.

(** C2 as the specification words it fails: a probe answered with 404
    (a status other than 200) makes construction fail with NotFound, not
    with Authentication. *)
Lemma C2_probe_not_found_counterexample :
  Response.status_code probe_not_found ≠ 200 ∧
  __init__ (always (Responds probe_not_found))
           (VStr "sk_test_123456789") DEFAULT_API_URL true [] =
    (inl (Raised NotFoundError "Not found: Not found" (Some 404)
            (Some (VDict [("error", VStr "Not found")]))),
     [request_call (new_client "sk_test_123456789" DEFAULT_API_URL true)
                   verify_args]) ∧
  NotFoundError ≠ AuthenticationError.
Proof.
  split; [simpl; lia|]. split; [vm_compute; reflexivity | discriminate].
Qed.

(** C5.  A credential that is the empty string, is not a string, or does
    not start with [sk_] makes construction fail with Validation, and the
    log of transport calls is left as it was: nothing was sent. *)
Theorem C5_bad_credential_fails_before_network
    server api_key api_url verify_ssl log :
  api_key = VStr "" ∨
  isinstance_str api_key = false ∨
  (∃ key, api_key = VStr key ∧ startswith key "sk_" = false) →
  ∃ message,
    __init__ server api_key api_url verify_ssl log =
      (inl (Raised ValidationError message None None), log).
Proof.
  unfold __init__, raise. intros [->|[Hstr|(key & -> & Hpre)]].
  - simpl. eauto.
  - rewrite Hstr, orb_true_r. eauto.
  - simpl. destruct (negb (negb (key =? "")%string)) eqn:E; simpl; [eauto|].
    rewrite Hpre. simpl. eauto.
Qed.

(** C5 on a key without the prefix, on a number and on the empty key. *)
Lemma C5_bad_credential_witness :
  (∃ message,
     __init__ (always (Responds redirect_response)) (VStr "invalid_key_123")
              DEFAULT_API_URL true [] =
       (inl (Raised ValidationError message None None), [])) ∧
  (∃ message,
     __init__ (always (Responds redirect_response)) (VInt 42)
              DEFAULT_API_URL true [] =
       (inl (Raised ValidationError message None None), [])) ∧
  (∃ message,
     __init__ (always (Responds redirect_response)) (VStr "")
              DEFAULT_API_URL true [] =
       (inl (Raised ValidationError message None None), [])).
Proof.
  repeat split.
  - apply C5_bad_credential_fails_before_network.
    right. right. exists "invalid_key_123". split; reflexivity.
  - apply C5_bad_credential_fails_before_network.
    right. left. reflexivity.
  - apply C5_bad_credential_fails_before_network.
    left. reflexivity.
Defined.

(** ** The multipart parts of a publish call *)

Lemma length_append (s t : string) :
  String.length (s +:+ t) = (String.length s + String.length t)%nat.
Proof. induction s as [|c s IH]; simpl; [done | by rewrite IH]. Qed.

Lemma append_inj_r (s1 s2 t : string) :
  t ≠ "" → s1 +:+ t = s2 +:+ t → s1 = s2.
Proof.
  intros Ht.
  assert (0 < String.length t)%nat as Hlen by (destruct t; simpl; [done|lia]).
  revert s2. induction s1 as [|c s1 IH]; intros [|d s2] Heq; simpl in *.
  - done.
  - exfalso. apply (f_equal String.length) in Heq.
    rewrite !length_append in Heq. simpl in Heq. lia.
  - exfalso. apply (f_equal String.length) in Heq.
    rewrite !length_append in Heq. simpl in Heq. lia.
  - cbn in Heq. injection Heq as -> Heq. f_equal. by apply IH.
Qed.

(** Distinct filenames give distinct part names. *)
Lemma part_name_inj fn1 fn2 : part_name fn1 = part_name fn2 → fn1 = fn2.
Proof.
  unfold part_name. intros Heq.
  apply (inj (String.app "images[")) in Heq.
  by apply (append_inj_r _ _ "]").
Qed.

Lemma or_empty_id images : or_empty images = images.
Proof. unfold or_empty. by case_decide. Qed.

(** What the loop leaves in [files]: one part per image, under its part
    name, holding the filename and the bytes; and nothing else. *)
Lemma build_files_spec images :
  (∀ k part, build_files images !! k = Some part ↔
     ∃ fn, k = part_name fn ∧ images !! fn = Some part.2 ∧ part.1 = fn) ∧
  size (build_files images) = size images.
Proof.
  unfold build_files. rewrite or_empty_id.
  apply (map_fold_weak_ind (λ files (m : gmap string (list Byte.byte)),
    (∀ k part, files !! k = Some part ↔
       ∃ fn, k = part_name fn ∧ m !! fn = Some part.2 ∧ part.1 = fn) ∧
    size files = size m)).
  - split; [|by rewrite !map_size_empty].
    intros k part. rewrite lookup_empty. split; [done|].
    intros (fn & _ & H & _). by rewrite lookup_empty in H.
  - intros fn b m files Hfresh [IH Hsize].
    assert (files !! part_name fn = None) as Hnone.
    { destruct (files !! part_name fn) as [part|] eqn:E; [|done].
      apply IH in E as (fn' & Hname & Hin & _).
      apply part_name_inj in Hname as <-. congruence. }
    split; [|by rewrite !map_size_insert_None, Hsize].
    intros k part. rewrite lookup_insert. case_decide as Hk.
    + subst k. split.
      * intros [= <-]. exists fn. by rewrite lookup_insert_eq.
      * intros (fn' & Hname & Hin & Hfst).
        apply part_name_inj in Hname as <-.
        rewrite lookup_insert_eq in Hin. destruct part; simpl in *. congruence.
    + rewrite IH. split; intros (fn' & -> & Hin & Hfst); exists fn'.
      * rewrite lookup_insert_ne by congruence. done.
      * rewrite lookup_insert_ne in Hin by congruence. done.
Qed.

Lemma build_files_lookup images fn b :
  images !! fn = Some b → build_files images !! part_name fn = Some (fn, b).
Proof.
  intros Hin. apply (build_files_spec images). exists fn. done.
Qed.

Lemma build_files_inv images k fn b :
  build_files images !! k = Some (fn, b) →
  k = part_name fn ∧ images !! fn = Some b.
Proof.
  intros Hk. apply (build_files_spec images) in Hk as (fn' & -> & Hin & Hfst).
  simpl in *. by subst.
Qed.

Lemma build_files_empty images : build_files images = ∅ ↔ images = ∅.
Proof.
  rewrite <- !map_size_empty_iff.
  by rewrite (proj2 (build_files_spec images)).
Qed.

(** The parts reach [_request] exactly when there is an image. *)
Lemma publish_files_truthy data images :
  files_truthy (Args.files (publish_args data images)) =
    negb (bool_decide (images = ∅)).
Proof.
  unfold publish_args, files_or_none, files_truthy. simpl.
  case_decide as Hf.
  - apply build_files_empty in Hf. by rewrite bool_decide_eq_true_2.
  - rewrite (bool_decide_eq_false_2 (build_files images = ∅)) by done.
    rewrite bool_decide_eq_false_2; [done|].
    by rewrite <- build_files_empty.
Qed.

Lemma publish_call_json self data images :
  images = ∅ →
  request_call self (publish_args data images) =
    {| Call.method := "POST";
       Call.url := api_url self +:+ "/api/articles/publish";
       Call.headers := headers self;
       Call.json := Some data; Call.data := None; Call.files := None;
       Call.timeout := REQUEST_TIMEOUT; Call.verify := verify_ssl self |}.
Proof.
  intros Himg. unfold request_call. rewrite publish_files_truthy.
  by rewrite bool_decide_eq_true_2.
Qed.

Lemma publish_call_multipart self data images :
  images ≠ ∅ →
  request_call self (publish_args data images) =
    {| Call.method := "POST";
       Call.url := api_url self +:+ "/api/articles/publish";
       Call.headers := headers self;
       Call.json := None; Call.data := Some data;
       Call.files := Some (build_files images);
       Call.timeout := REQUEST_TIMEOUT; Call.verify := verify_ssl self |}.
Proof.
  intros Himg. unfold request_call. rewrite publish_files_truthy.
  rewrite bool_decide_eq_false_2 by done. simpl.
  unfold files_or_none. case_decide as Hf; [|done].
  by apply build_files_empty in Hf.
Qed.

(** ** Publishing *)

Section Publish.

Variable server : Server.
Variable self : Client.
Variables (title content frontmatter file_path : value).
Variable images : gmap string (list Byte.byte).
Variable dumped : string.

Hypothesis Htitle : truthy title = true.
Hypothesis Hcontent : truthy content = true.
Hypothesis Hdict : isinstance_dict frontmatter = true.
Hypothesis Hdumped : json_dumps frontmatter = Some dumped.

Local Abbreviation data := (publish_fields title content file_path dumped).

Lemma publish_data_eq :
  publish_data title content frontmatter file_path = inr data.
Proof. unfold publish_data. by rewrite Hdumped. Qed.

(** A publish call that passes its checks makes one transport call. *)
Lemma publish_log log :
  (publish_article server self title content frontmatter images file_path
                   log).2 =
    (log ++ [request_call self (publish_args data images)])%list.
Proof.
  unfold publish_article. rewrite Htitle, Hcontent, Hdict. simpl.
  unfold bind, lift, ret. rewrite publish_data_eq.
  pose proof (request_log server self (publish_args data images) log) as Hlog.
  destruct (_request server self (publish_args data images) log)
    as [[e|response] log']; simpl in *; subst log'; [done|].
  step_decoding; done.
Qed.

(** What a publish call returns on a success response. *)
Lemma publish_decodes log r kvs a p w c :
  server log (request_call self (publish_args data images)) = Responds r →
  Response.status_code r < 400 →
  Response.json r = inr (VDict kvs) →
  dict_lookup kvs "article_id" = Some a →
  dict_lookup kvs "published_id" = Some p →
  dict_lookup kvs "web_url" = Some w →
  dict_lookup kvs "created_at" = Some c →
  (publish_article server self title content frontmatter images file_path
                   log).1 =
    inr {| Publish.success := true; Publish.article_id := a;
           Publish.published_id := p; Publish.web_url := w;
           Publish.images := default (VDict []) (dict_lookup kvs "images");
           Publish.created_at := c |}.
Proof.
  intros Hr Hlt Hjson Ha Hp Hw Hc.
  unfold publish_article. rewrite Htitle, Hcontent, Hdict. simpl.
  unfold bind, lift, ret. rewrite publish_data_eq.
  rewrite (request_success _ _ _ _ _ Hr Hlt).
  unfold response_json. rewrite Hjson. simpl. by rewrite Ha, Hp, Hw, Hc.
Qed.

End Publish.

(** C3.  A publish call that passes its checks makes one transport call.
    Without images the dictionary of the four scalar fields (title,
    content, the frontmatter serialised by [json.dumps], file path) goes
    out as the JSON body, with no form data and no multipart parts.
    With at least one image the JSON body is absent, that same
    dictionary goes out as form data, and the parts are exactly one per
    image, named [images[<filename>]] and holding the filename and the
    bytes; different filenames have different part names. *)
Theorem C3_publish_encoding
    server self title content frontmatter images file_path dumped log :
  truthy title = true →
  truthy content = true →
  isinstance_dict frontmatter = true →
  json_dumps frontmatter = Some dumped →
  let fields :=
    VDict [("title", title); ("content", content);
           ("frontmatter", VStr dumped); ("file_path", file_path)] in
  ∃ call,
    (publish_article server self title content frontmatter images file_path
                     log).2 = (log ++ [call])%list ∧
    (images = ∅ →
       Call.json call = Some fields ∧ Call.data call = None ∧
       Call.files call = None) ∧
    (images ≠ ∅ →
       Call.json call = None ∧ Call.data call = Some fields ∧
       ∃ files,
         Call.files call = Some files ∧
         size files = size images ∧
         (∀ filename file_bytes,
            images !! filename = Some file_bytes →
            files !! ("images[" +:+ filename +:+ "]") =
              Some (filename, file_bytes)) ∧
         (∀ name filename file_bytes,
            files !! name = Some (filename, file_bytes) →
            name = "images[" +:+ filename +:+ "]" ∧
            images !! filename = Some file_bytes) ∧
         (∀ filename1 filename2,
            filename1 ≠ filename2 →
            "images[" +:+ filename1 +:+ "]" ≠ "images[" +:+ filename2 +:+ "]")).
Proof.
  intros Ht Hc Hd Hj fields. eexists. split.
  { by apply publish_log with (dumped := dumped). }
  change fields with (publish_fields title content file_path dumped).
  split.
  - intros Himg. by rewrite publish_call_json.
  - intros Himg. rewrite publish_call_multipart by done. simpl.
    do 2 (split; [done|]). exists (build_files images).
    split; [done|]. split; [apply build_files_spec|].
    split; [apply build_files_lookup|]. split; [apply build_files_inv|].
    intros fn1 fn2 Hne Heq. by apply Hne, part_name_inj.
Qed.

(** C3 on a publish with one image and on the same publish without. *)
Lemma C3_publish_encoding_witness :
  let fields :=
    VDict [("title", VStr "Test Article"); ("content", VStr "# Test Content");
           ("frontmatter", VStr demo_dumped);
           ("file_path", VStr "/path/to/article.md")] in
  let publish images :=
    publish_article (always (Responds publish_ok)) demo_client
      (VStr "Test Article") (VStr "# Test Content") demo_frontmatter
      images (VStr "/path/to/article.md") [] in
  (∃ call,
     (publish demo_images).2 = [call] ∧
     Call.json call = None ∧ Call.data call = Some fields ∧
     ∃ files,
       Call.files call = Some files ∧ size files = 1%nat ∧
       files !! "images[screenshot.png]" = Some ("screenshot.png", png1)) ∧
  (∃ call,
     (publish ∅).2 = [call] ∧
     Call.json call = Some fields ∧ Call.data call = None ∧
     Call.files call = None).
Proof.
  cbv zeta. split.
  - destruct (C3_publish_encoding (always (Responds publish_ok)) demo_client
                (VStr "Test Article") (VStr "# Test Content") demo_frontmatter
                demo_images (VStr "/path/to/article.md") demo_dumped []
                eq_refl eq_refl eq_refl eq_refl)
      as (call & Hlog & _ & Hmulti).
    destruct Hmulti as (Hjson & Hdata & files & Hfiles & Hsize & Hin & _).
    { intros Hempty. apply (f_equal (λ m, m !! "screenshot.png")) in Hempty.
      vm_compute in Hempty. discriminate. }
    exists call. split; [exact Hlog|]. split; [exact Hjson|].
    split; [exact Hdata|]. exists files. split; [exact Hfiles|].
    split; [rewrite Hsize; reflexivity|].
    apply (Hin "screenshot.png" png1). reflexivity.
  - destruct (C3_publish_encoding (always (Responds publish_ok)) demo_client
                (VStr "Test Article") (VStr "# Test Content") demo_frontmatter
                ∅ (VStr "/path/to/article.md") demo_dumped []
                eq_refl eq_refl eq_refl eq_refl)
      as (call & Hlog & Hplain & _).
    exists call. split; [exact Hlog|]. exact (Hplain eq_refl).
Defined.

(** C6.  With an empty title, an empty content, or a frontmatter that is
    not a dictionary, a publish call fails with Validation and leaves
    the log of transport calls as it was. *)
Theorem C6_publish_checks_before_network
    server self title content frontmatter images file_path log :
  title = VStr "" ∨ content = VStr "" ∨ isinstance_dict frontmatter = false →
  ∃ message,
    publish_article server self title content frontmatter images file_path log =
      (inl (Raised ValidationError message None None), log).
Proof.
  unfold publish_article, raise. intros [->|[->|Hfm]].
  - simpl. eauto.
  - rewrite orb_true_r. eauto.
  - destruct (negb (truthy title) || negb (truthy content)); [eauto|].
    rewrite Hfm. simpl. eauto.
Qed.

(** C6 on an empty title, an empty content and a frontmatter that is a
    string. *)
Lemma C6_publish_checks_witness :
  (∃ message,
     publish_article (always (Responds publish_ok)) demo_client
       (VStr "") (VStr "x") (VDict []) ∅ (VStr "/path/to/article.md") [] =
       (inl (Raised ValidationError message None None), [])) ∧
  (∃ message,
     publish_article (always (Responds publish_ok)) demo_client
       (VStr "x") (VStr "") (VDict []) ∅ (VStr "/path/to/article.md") [] =
       (inl (Raised ValidationError message None None), [])) ∧
  (∃ message,
     publish_article (always (Responds publish_ok)) demo_client
       (VStr "Test") (VStr "# Test") (VStr "not_a_dict") ∅
       (VStr "/path/to/article.md") [] =
       (inl (Raised ValidationError message None None), [])).
Proof.
  repeat split.
  - apply C6_publish_checks_before_network. left. reflexivity.
  - apply C6_publish_checks_before_network. right. left. reflexivity.
  - apply C6_publish_checks_before_network. right. right. reflexivity.
Defined.

(** C7.  When the publish call is answered with a success status and a
    JSON object holding [article_id], [published_id], [web_url] and
    [created_at], the operation returns a result whose four fields are
    those values, and whose image map is the empty dictionary when the
    object has no [images] key. *)
Theorem C7_publish_result_mirrors_body
    server self title content frontmatter images file_path dumped log
    r kvs a p w c :
  truthy title = true →
  truthy content = true →
  isinstance_dict frontmatter = true →
  json_dumps frontmatter = Some dumped →
  server log (request_call self
                (publish_args (publish_fields title content file_path dumped)
                              images)) = Responds r →
  Response.status_code r < 400 →
  Response.json r = inr (VDict kvs) →
  dict_lookup kvs "article_id" = Some a →
  dict_lookup kvs "published_id" = Some p →
  dict_lookup kvs "web_url" = Some w →
  dict_lookup kvs "created_at" = Some c →
  ∃ result,
    (publish_article server self title content frontmatter images file_path
                     log).1 = inr result ∧
    Publish.article_id result = a ∧
    Publish.published_id result = p ∧
    Publish.web_url result = w ∧
    Publish.created_at result = c ∧
    (dict_lookup kvs "images" = None → Publish.images result = VDict []).
Proof.
  intros Ht Hc Hd Hj Hr Hlt Hjson Ha Hp Hw Hcr. eexists. split.
  { by apply publish_decodes with (dumped := dumped) (r := r) (kvs := kvs). }
  simpl. repeat split. by intros ->.
Qed.

(** C7 on the response of the specification example. *)
Lemma C7_publish_result_witness :
  ∃ result,
    (publish_article (always (Responds publish_ok)) demo_client
       (VStr "Test Article") (VStr "# Test Content") demo_frontmatter
       ∅ (VStr "/path/to/article.md") []).1 = inr result ∧
    Publish.article_id result = VStr "art_1" ∧
    Publish.published_id result = VStr "pub_1" ∧
    Publish.web_url result = VStr "https://x/pub_1" ∧
    Publish.created_at result = VStr "2024-01-01T00:00:00Z" ∧
    Publish.images result = VDict [].
Proof.
  destruct (C7_publish_result_mirrors_body
              (always (Responds publish_ok)) demo_client
              (VStr "Test Article") (VStr "# Test Content") demo_frontmatter
              ∅ (VStr "/path/to/article.md") demo_dumped [] publish_ok
              _ _ _ _ _
              eq_refl eq_refl eq_refl eq_refl eq_refl eq_refl eq_refl
              eq_refl eq_refl eq_refl eq_refl)
    as (result & Hres & Ha & Hp & Hw & Hc & Himg).
  exists result. repeat split; try assumption. apply Himg. reflexivity.
Defined.

(** C8.  In both encodings the one transport call of a publish carries,
    under the key [frontmatter], the string that [json.dumps] made of the
    frontmatter: in the JSON body without images, in the form data with
    images.  The field is that string, not the dictionary itself. *)
Theorem C8_frontmatter_is_a_json_string
    server self title content frontmatter images file_path dumped log :
  truthy title = true →
  truthy content = true →
  isinstance_dict frontmatter = true →
  json_dumps frontmatter = Some dumped →
  ∃ call fields,
    (publish_article server self title content frontmatter images file_path
                     log).2 = (log ++ [call])%list ∧
    (images = ∅ →
       Call.json call = Some (VDict fields) ∧ Call.data call = None) ∧
    (images ≠ ∅ →
       Call.data call = Some (VDict fields) ∧ Call.json call = None) ∧
    dict_lookup fields "frontmatter" = Some (VStr dumped) ∧
    VStr dumped ≠ frontmatter.
Proof.
  intros Ht Hc Hd Hj. eexists. eexists. split.
  { by apply publish_log with (dumped := dumped). }
  split; [|split; [|split]].
  - intros Himg. rewrite publish_call_json by done. simpl. split; reflexivity.
  - intros Himg. rewrite publish_call_multipart by done. simpl.
    split; reflexivity.
  - reflexivity.
  - intros <-. discriminate.
Qed.

(** C8 on a publish without images. *)
Lemma C8_frontmatter_witness :
  ∃ call fields,
    (publish_article (always (Responds publish_ok)) demo_client
       (VStr "Test Article") (VStr "# Test Content") demo_frontmatter
       ∅ (VStr "/path/to/article.md") []).2 = [call] ∧
    Call.json call = Some (VDict fields) ∧
    dict_lookup fields "frontmatter" = Some (VStr demo_dumped).
Proof.
  destruct (C8_frontmatter_is_a_json_string
              (always (Responds publish_ok)) demo_client
              (VStr "Test Article") (VStr "# Test Content") demo_frontmatter
              ∅ (VStr "/path/to/article.md") demo_dumped []
              eq_refl eq_refl eq_refl eq_refl)
    as (call & fields & Hlog & Hjson & _ & Hfm & _).
  exists call, fields. split; [exact Hlog|].
  split; [apply Hjson; reflexivity | exact Hfm].
Defined.

(** ** Deleting *)

(** C9.  When the delete call is answered with a success status and a
    JSON object that has the three required keys and no [archived] key,
    the operation returns a result whose [archived] is [True]. *)
Theorem C9_archived_defaults_to_true
    server self published_id log r kvs a p d :
  server log (request_call self (delete_args published_id)) = Responds r →
  Response.status_code r < 400 →
  Response.json r = inr (VDict kvs) →
  dict_lookup kvs "article_id" = Some a →
  dict_lookup kvs "published_id" = Some p →
  dict_lookup kvs "deleted_at" = Some d →
  dict_lookup kvs "archived" = None →
  (delete_article server self published_id log).1 =
    inr {| Delete.success := true; Delete.article_id := a;
           Delete.published_id := p; Delete.deleted_at := d;
           Delete.archived := VBool true |}.
Proof.
  intros Hr Hlt Hjson Ha Hp Hd Harch.
  unfold delete_article, bind, lift, ret.
  rewrite (request_success _ _ _ _ _ Hr Hlt).
  unfold response_json. rewrite Hjson. simpl.
  by rewrite Ha, Hp, Hd, Harch.
Qed.

(** C9 on a delete response without the [archived] key. *)
Lemma C9_archived_witness :
  (delete_article (always (Responds delete_ok)) demo_client "pub_456def" []).1 =
    inr {| Delete.success := true;
           Delete.article_id := VStr "art_123abc";
           Delete.published_id := VStr "pub_456def";
           Delete.deleted_at := VStr "2024-02-04T13:00:00Z";
           Delete.archived := VBool true |}.
Proof.
  apply (C9_archived_defaults_to_true (always (Responds delete_ok))
           demo_client "pub_456def" [] delete_ok
           [("article_id", VStr "art_123abc");
            ("published_id", VStr "pub_456def");
            ("deleted_at", VStr "2024-02-04T13:00:00Z")]);
    (reflexivity || (simpl; lia)).
Defined.

(** C10.  Whenever a publish call or a delete call returns a result
    record, its [success] field is [True]. *)
Theorem C10_results_report_success server self :
  (∀ title content frontmatter images file_path log result,
     (publish_article server self title content frontmatter images file_path
                      log).1 = inr result →
     Publish.success result = true) ∧
  (∀ published_id log result,
     (delete_article server self published_id log).1 = inr result →
     Delete.success result = true).
Proof.
  split.
  - intros title content frontmatter images file_path log result.
    unfold publish_article, bind, lift, ret, raise.
    destruct (negb (truthy title) || negb (truthy content)); [discriminate|].
    destruct (negb (isinstance_dict frontmatter)); [discriminate|].
    destruct (publish_data _ _ _ _) as [e|data]; [discriminate|].
    destruct (_request _ _ _ _) as [[e|response] log']; [discriminate|].
    step_decoding; try discriminate. by intros [= <-].
  - intros published_id log result.
    unfold delete_article, bind, lift, ret.
    destruct (_request _ _ _ _) as [[e|response] log']; [discriminate|].
    step_decoding; try discriminate. by intros [= <-].
Qed.

(** C10 on a publish and a delete that succeed. *)
Lemma C10_results_report_success_witness :
  (∃ result,
     (publish_article (always (Responds publish_ok)) demo_client
        (VStr "Test Article") (VStr "# Test Content") demo_frontmatter
        demo_images (VStr "/path/to/article.md") []).1 = inr result ∧
     Publish.success result = true) ∧
  (∃ result,
     (delete_article (always (Responds delete_ok)) demo_client
        "pub_456def" []).1 = inr result ∧
     Delete.success result = true).
Proof.
  destruct (C10_results_report_success (always (Responds publish_ok))
              demo_client) as [Hpublish _].
  destruct (C10_results_report_success (always (Responds delete_ok))
              demo_client) as [_ Hdelete].
  split.
  - eexists. split; [vm_compute; reflexivity|].
    apply (Hpublish (VStr "Test Article") (VStr "# Test Content")
             demo_frontmatter demo_images (VStr "/path/to/article.md") []).
    vm_compute. reflexivity.
  - eexists. split; [vm_compute; reflexivity|].
    apply (Hdelete "pub_456def" []). vm_compute. reflexivity.
Defined.

(** ** The two body arguments of the dispatch *)

Lemma sends_nothing log : sends_client_calls log log.
Proof. exists []. split; [by rewrite app_nil_r | constructor]. Qed.

Lemma sends_one self a log :
  client_call a →
  sends_client_calls log (log ++ [request_call self a])%list.
Proof.
  intros Ha. exists [request_call self a]. split; [done|].
  repeat constructor. eauto.
Qed.

(** Every transport call of every operation comes from [client_call]. *)
Lemma operations_send_client_calls server :
  (∀ api_key api_url verify_ssl log,
     sends_client_calls log
       (__init__ server api_key api_url verify_ssl log).2) ∧
  (∀ self title content frontmatter images file_path log,
     sends_client_calls log
       (publish_article server self title content frontmatter images
                        file_path log).2) ∧
  (∀ self published_id log,
     sends_client_calls log (get_article server self published_id log).2) ∧
  (∀ self published_id log,
     sends_client_calls log (delete_article server self published_id log).2).
Proof.
  repeat split.
  - intros api_key api_url verify_ssl log. unfold __init__, raise.
    destruct (negb (truthy api_key) || negb (isinstance_str api_key));
      [apply sends_nothing|].
    destruct api_key as [| | |key| | |]; try apply sends_nothing.
    destruct (negb (startswith key "sk_")); [apply sends_nothing|].
    unfold _verify_authentication, try_except, bind, ret, raise.
    pose proof (request_log server (new_client key api_url verify_ssl)
                  verify_args log) as Hlog.
    destruct (_request _ _ _ _) as [[e|response] log']; simpl in *; subst log'.
    + destruct e as [| cls text | | |]; simpl;
        apply sends_one; constructor.
    + destruct (negb _); simpl; apply sends_one; constructor.
  - intros self title content frontmatter images file_path log.
    unfold publish_article, raise, bind, lift, ret.
    destruct (negb (truthy title) || negb (truthy content));
      [apply sends_nothing|].
    destruct (negb (isinstance_dict frontmatter)); [apply sends_nothing|].
    destruct (publish_data _ _ _ _) as [e|data]; [apply sends_nothing|].
    pose proof (request_log server self (publish_args data images) log) as Hlog.
    destruct (_request _ _ _ _) as [[e|response] log']; simpl in *; subst log';
      step_decoding; apply sends_one; constructor.
  - intros self published_id log. unfold get_article, bind, lift.
    pose proof (request_log server self (get_args published_id) log) as Hlog.
    destruct (_request _ _ _ _) as [[e|response] log']; simpl in *; subst log';
      apply sends_one; constructor.
  - intros self published_id log. unfold delete_article, bind, lift, ret.
    pose proof (request_log server self (delete_args published_id) log) as Hlog.
    destruct (_request _ _ _ _) as [[e|response] log']; simpl in *; subst log';
      step_decoding; apply sends_one; constructor.
Qed.


(** C4 (as the code has it).  The arguments with which the operations
    call the dispatch are these.  The probe, the fetch and the delete
    pass neither a body nor multipart parts.  A publish call always
    passes the dictionary of its four fields as the body, and passes
    parts exactly when there is at least one image, so with images both
    arguments are populated.  The dispatch never hands the transport both
    a JSON body and multipart parts: without parts the body argument
    goes out as the JSON body, with parts it goes out as form data
    beside the parts. *)
Theorem C4_dispatch_arguments server self :
  (∀ log,
     (_verify_authentication server self log).2 =
       (log ++ [request_call self
                  (Args.mk "GET" "/api/auth/verify" None None 5)])%list) ∧
  (∀ published_id log,
     (get_article server self published_id log).2 =
       (log ++ [request_call self
                  (Args.mk "GET" ("/api/articles/" +:+ published_id)
                           None None 30)])%list) ∧
  (∀ published_id log,
     (delete_article server self published_id log).2 =
       (log ++ [request_call self
                  (Args.mk "DELETE" ("/api/articles/" +:+ published_id)
                           None None 30)])%list) ∧
  (∀ title content frontmatter images file_path dumped log,
     truthy title = true →
     truthy content = true →
     isinstance_dict frontmatter = true →
     json_dumps frontmatter = Some dumped →
     ∃ files,
       (publish_article server self title content frontmatter images file_path
                        log).2 =
         (log ++ [request_call self
                    (Args.mk "POST" "/api/articles/publish"
                       (Some (VDict [("title", title); ("content", content);
                                     ("frontmatter", VStr dumped);
                                     ("file_path", file_path)]))
                       files 30)])%list ∧
       (images = ∅ → files = None) ∧
       (images ≠ ∅ → ∃ parts, files = Some parts ∧ parts ≠ ∅)) ∧
  (∀ method endpoint data files timeout,
     let call := request_call self (Args.mk method endpoint data files timeout) in
     ¬ (is_Some (Call.json call) ∧ is_Some (Call.files call)) ∧
     (files = None ∨ files = Some ∅ →
        Call.json call = data ∧ Call.data call = None ∧
        Call.files call = None) ∧
     (∀ parts, files = Some parts → parts ≠ ∅ →
        Call.json call = None ∧ Call.data call = data ∧
        Call.files call = Some parts)).
Proof.
  split; [|split; [|split; [|split]]].
  - intros log. unfold _verify_authentication, try_except, bind, ret, raise.
    pose proof (request_log server self verify_args log) as Hlog.
    destruct (_request _ _ _ _) as [[e|response] log']; simpl in *; subst log'.
    + by destruct e.
    + by destruct (negb _).
  - intros published_id log. unfold get_article, bind, lift.
    pose proof (request_log server self (get_args published_id) log) as Hlog.
    by destruct (_request _ _ _ _) as [[e|response] log']; simpl in *;
      subst log'.
  - intros published_id log. unfold delete_article, bind, lift, ret.
    pose proof (request_log server self (delete_args published_id) log) as Hlog.
    destruct (_request _ _ _ _) as [[e|response] log']; simpl in *; subst log';
      step_decoding; done.
  - intros title content frontmatter images file_path dumped log Ht Hc Hd Hj.
    exists (files_or_none (build_files images)). split; [|split].
    + by apply publish_log with (dumped := dumped).
    + intros ->. reflexivity.
    + intros Himg. exists (build_files images). unfold files_or_none.
      case_decide as Hf; [by apply build_files_empty in Hf | done].
  - intros method endpoint data files timeout call. subst call.
    unfold request_call. simpl. split; [|split].
    + destruct (files_truthy files); simpl; intros [[x Hx] [y Hy]];
        discriminate.
    + intros [->| ->]; simpl; [done|].
      by rewrite bool_decide_eq_true_2.
    + intros parts -> Hne. simpl.
      by rewrite bool_decide_eq_false_2.
Qed.

(** C4 on a publish with one image: the body and the parts are both
    passed, and the transport gets form data and parts but no JSON
    body. *)
Lemma C4_dispatch_arguments_witness :
  ∃ files,
    (publish_article (always (Responds publish_ok)) demo_client
       (VStr "Test Article") (VStr "# Test Content") demo_frontmatter
       demo_images (VStr "/path/to/article.md") []).2 =
      [request_call demo_client
         (Args.mk "POST" "/api/articles/publish"
            (Some (VDict [("title", VStr "Test Article");
                          ("content", VStr "# Test Content");
                          ("frontmatter", VStr demo_dumped);
                          ("file_path", VStr "/path/to/article.md")]))
            files 30)] ∧
    ∃ parts, files = Some parts ∧ parts ≠ ∅.
Proof.
  destruct (C4_dispatch_arguments (always (Responds publish_ok)) demo_client)
    as (_ & _ & _ & Hpublish & _).
  destruct (Hpublish (VStr "Test Article") (VStr "# Test Content")
              demo_frontmatter demo_images (VStr "/path/to/article.md")
              demo_dumped [] eq_refl eq_refl eq_refl eq_refl)
    as (files & Hlog & _ & Hparts).
  exists files. split; [exact Hlog|]. apply Hparts.
  intros Hempty. apply (f_equal (λ m, m !! "screenshot.png")) in Hempty.
  vm_compute in Hempty. discriminate.
Defined.

(** C4 as the specification words it fails twice.  The fetch is a call
    of the client to the dispatch that populates neither argument, so
    "exactly one" fails; a publish with an image populates both the body
    and the parts, so "never both" fails as well. *)
Lemma C4_exactly_one_counterexample :
  let fields :=
    VDict [("title", VStr "Test Article"); ("content", VStr "# Test Content");
           ("frontmatter", VStr demo_dumped);
           ("file_path", VStr "/path/to/article.md")] in
  let parts : gmap string (string * list Byte.byte) :=
    {[ "images[screenshot.png]" := ("screenshot.png", png1) ]} in
  (get_args "pub_1" = Args.mk "GET" "/api/articles/pub_1" None None 30 ∧
   (get_article (always (Responds publish_ok)) demo_client "pub_1" []).2 =
     [request_call demo_client (get_args "pub_1")]) ∧
  (publish_args fields demo_images =
     Args.mk "POST" "/api/articles/publish" (Some fields) (Some parts) 30 ∧
   parts ≠ ∅ ∧
   (publish_article (always (Responds publish_ok)) demo_client
      (VStr "Test Article") (VStr "# Test Content") demo_frontmatter
      demo_images (VStr "/path/to/article.md") []).2 =
     [request_call demo_client (publish_args fields demo_images)]) ∧
  ¬ (∀ a, client_call a →
          exactly_one (is_Some (Args.data a)) (is_Some (Args.files a))) ∧
  ¬ (∀ a, client_call a →
          ¬ (is_Some (Args.data a) ∧ is_Some (Args.files a))).
Proof.
  cbv zeta. split; [|split; [|split]].
  - split; [reflexivity | vm_compute; reflexivity].
  - split; [vm_compute; reflexivity|]. split; [|vm_compute; reflexivity].
    intros Hempty.
    apply (f_equal (λ m, m !! "images[screenshot.png]")) in Hempty.
    vm_compute in Hempty. discriminate.
  - intros Hall.
    destruct (Hall _ (call_get "pub_1")) as [[[x Hx] _]|[_ [x Hx]]];
      discriminate.
  - intros Hnever.
    apply (Hnever _ (call_publish (VStr "x") demo_images)).
    split; [by eexists|]. vm_compute. by eexists.
Qed.

(** * Further properties of the client *)

(** ** What the dispatch returns *)

Lemma handle_response_errors_error r :
  400 ≤ Response.status_code r → ∃ e, _handle_response_errors r = inl e.
Proof.
  intros Hge. destruct (object_or_undecodable r) eqn:Hbody.
  - destruct (handle_response_errors_classifies r Hge Hbody) as [m ->]. eauto.
  - rewrite handle_response_errors_non_object by done. eauto.
Qed.

(** X1.  The dispatch returns normally exactly when the server answers
    with a status below 400, and then it returns that very response; a
    status of 400 or more never comes back as a value. *)
Theorem request_returns_iff server self a log r :
  (_request server self a log).1 = inr r ↔
  server log (request_call self a) = Responds r ∧ Response.status_code r < 400.
Proof.
  split.
  - destruct (server log (request_call self a)) as [r0|cls text] eqn:Hs.
    + rewrite (request_responds _ _ _ _ _ Hs). simpl.
      destruct (_handle_response_errors r0) as [e|[]] eqn:He; [discriminate|].
      intros [= <-]. split; [done|].
      destruct (Z.lt_ge_cases (Response.status_code r0) 400) as [|Hge]; [done|].
      destruct (handle_response_errors_error r0 Hge) as [e He']. congruence.
    + destruct (request_fails _ _ _ _ _ _ Hs) as [m ->]. discriminate.
  - intros [Hs Hlt]. by rewrite (request_success _ _ _ _ _ Hs Hlt).
Qed.

(** A failure inside [requests] leaves the dispatch as a [NetworkError]
    without status code and payload, after the one call. *)
Lemma request_transport_failure server self a log cls text :
  server log (request_call self a) = Fails cls text →
  _request server self a log =
    (inl (Raised NetworkError (network_message cls text (Args.timeout a))
                 None None),
     (log ++ [request_call self a])%list).
Proof.
  intros Hf.
  unfold _request, try_except, bind, session_request, lift, ret, raise.
  rewrite Hf. by destruct cls.
Qed.

(** X2.  When the transport fails, every operation fails with a
    [NetworkError] that has no status code and no payload and whose text
    comes from the dispatch: it names the timeout (5 for the probe, 30
    otherwise) after a timeout and repeats the text of the exception
    otherwise.  The wrapper text of the probe, "Failed to verify
    authentication", is never produced. *)
Theorem operations_transport_failure server self cls text log :
  (∀ key api_url verify_ssl,
     startswith key "sk_" = true →
     server log (request_call (new_client key api_url verify_ssl) verify_args)
       = Fails cls text →
     (__init__ server (VStr key) api_url verify_ssl log).1 =
       inl (Raised NetworkError (network_message cls text 5) None None)) ∧
  (∀ title content frontmatter images file_path dumped,
     truthy title = true → truthy content = true →
     isinstance_dict frontmatter = true →
     json_dumps frontmatter = Some dumped →
     server log (request_call self
       (publish_args (publish_fields title content file_path dumped) images))
       = Fails cls text →
     (publish_article server self title content frontmatter images file_path
                      log).1 =
       inl (Raised NetworkError (network_message cls text 30) None None)) ∧
  (∀ published_id,
     server log (request_call self (get_args published_id)) = Fails cls text →
     (get_article server self published_id log).1 =
       inl (Raised NetworkError (network_message cls text 30) None None)) ∧
  (∀ published_id,
     server log (request_call self (delete_args published_id)) = Fails cls text →
     (delete_article server self published_id log).1 =
       inl (Raised NetworkError (network_message cls text 30) None None)).
Proof.
  repeat split.
  - intros key api_url verify_ssl Hkey Hf. rewrite init_runs_probe by done.
    unfold _verify_authentication, try_except, bind.
    by rewrite (request_transport_failure _ _ _ _ _ _ Hf).
  - intros title content frontmatter images file_path dumped Ht Hc Hd Hj Hf.
    unfold publish_article. rewrite Ht, Hc, Hd. simpl.
    unfold bind, lift. rewrite (publish_data_eq _ _ _ _ _ Hj).
    by rewrite (request_transport_failure _ _ _ _ _ _ Hf).
  - intros published_id Hf. unfold get_article, bind.
    by rewrite (request_transport_failure _ _ _ _ _ _ Hf).
  - intros published_id Hf. unfold delete_article, bind.
    by rewrite (request_transport_failure _ _ _ _ _ _ Hf).
Qed.

(** X2 on a probe that times out and on a fetch whose connection is
    refused. *)
Lemma operations_transport_failure_witness :
  (__init__ (always (Fails Timeout "Read timed out"))
            (VStr "sk_test_123456789") DEFAULT_API_URL true []).1 =
    inl (Raised NetworkError "Request timeout after 5s" None None) ∧
  (get_article (always (Fails ConnectionError "refused")) demo_client
               "pub_1" []).1 =
    inl (Raised NetworkError "Connection failed: refused" None None).
Proof.
  split.
  - destruct (operations_transport_failure
                (always (Fails Timeout "Read timed out")) demo_client
                Timeout "Read timed out" []) as (Hinit & _).
    apply (Hinit "sk_test_123456789" DEFAULT_API_URL true eq_refl eq_refl).
  - destruct (operations_transport_failure
                (always (Fails ConnectionError "refused")) demo_client
                ConnectionError "refused" []) as (_ & _ & Hget & _).
    apply (Hget "pub_1" eq_refl).
Defined.

(** X3.  No operation retries: construction, publish, fetch and delete
    each add at most one call to the log of the transport. *)
Theorem operations_send_at_most_one_call server :
  (∀ api_key api_url verify_ssl log,
     ∃ calls, (__init__ server api_key api_url verify_ssl log).2 =
                (log ++ calls)%list ∧ (length calls ≤ 1)%nat) ∧
  (∀ self title content frontmatter images file_path log,
     ∃ calls, (publish_article server self title content frontmatter images
                               file_path log).2 = (log ++ calls)%list ∧
              (length calls ≤ 1)%nat) ∧
  (∀ self published_id log,
     ∃ calls, (get_article server self published_id log).2 =
                (log ++ calls)%list ∧ (length calls ≤ 1)%nat) ∧
  (∀ self published_id log,
     ∃ calls, (delete_article server self published_id log).2 =
                (log ++ calls)%list ∧ (length calls ≤ 1)%nat).
Proof.
  assert (∀ log : list Call.t,
            ∃ calls, log = (log ++ calls)%list ∧ (length calls ≤ 1)%nat)
    as Hnone.
  { intros log. exists []. split; [by rewrite app_nil_r | simpl; lia]. }
  assert (∀ (log : list Call.t) c,
            ∃ calls, (log ++ [c])%list = (log ++ calls)%list ∧
                     (length calls ≤ 1)%nat)
    as Hone.
  { intros log c. exists [c]. split; [done | simpl; lia]. }
  repeat split.
  - intros api_key api_url verify_ssl log. unfold __init__, raise.
    destruct (negb (truthy api_key) || negb (isinstance_str api_key));
      [apply Hnone|].
    destruct api_key as [| | |key| | |]; try apply Hnone.
    destruct (negb (startswith key "sk_")); [apply Hnone|].
    unfold _verify_authentication, try_except, bind, ret, raise.
    pose proof (request_log server (new_client key api_url verify_ssl)
                  verify_args log) as Hlog.
    destruct (_request _ _ _ _) as [[e|response] log']; simpl in *; subst log'.
    + destruct e as [| cls text | | |]; simpl; apply Hone.
    + destruct (negb _); simpl; apply Hone.
  - intros self title content frontmatter images file_path log.
    unfold publish_article, raise, bind, lift, ret.
    destruct (negb (truthy title) || negb (truthy content)); [apply Hnone|].
    destruct (negb (isinstance_dict frontmatter)); [apply Hnone|].
    destruct (publish_data _ _ _ _) as [e|data]; [apply Hnone|].
    pose proof (request_log server self (publish_args data images) log) as Hlog.
    destruct (_request _ _ _ _) as [[e|response] log']; simpl in *; subst log';
      step_decoding; apply Hone.
  - intros self published_id log. unfold get_article, bind, lift.
    pose proof (request_log server self (get_args published_id) log) as Hlog.
    destruct (_request _ _ _ _) as [[e|response] log']; simpl in *; subst log';
      apply Hone.
  - intros self published_id log. unfold delete_article, bind, lift, ret.
    pose proof (request_log server self (delete_args published_id) log) as Hlog.
    destruct (_request _ _ _ _) as [[e|response] log']; simpl in *; subst log';
      step_decoding; apply Hone.
Qed.

(** ** Fetching *)

(** X4.  On a status below 400 with a body that decodes, the fetch
    returns the decoded body as it is, whatever its shape, after one GET
    of [/api/articles/<id>] under the base URL, without a body and with
    the default timeout. *)
Theorem get_article_passthrough server self published_id log r body :
  server log (request_call self (get_args published_id)) = Responds r →
  Response.status_code r < 400 →
  Response.json r = inr body →
  get_article server self published_id log =
    (inr body,
     (log ++ [{| Call.method := "GET";
                 Call.url := api_url self +:+ "/api/articles/" +:+ published_id;
                 Call.headers := headers self;
                 Call.json := None; Call.data := None; Call.files := None;
                 Call.timeout := 30; Call.verify := verify_ssl self |}])%list).
Proof.
  intros Hs Hlt Hjson. unfold get_article, bind, lift.
  rewrite (request_success _ _ _ _ _ Hs Hlt).
  unfold response_json. by rewrite Hjson.
Qed.

Lemma get_article_passthrough_witness :
  (get_article (always (Responds (Response.mk 200 "[1]" (inr (VList [VInt 1])))))
               demo_client "pub_1" []).1 = inr (VList [VInt 1]).
Proof.
  rewrite (get_article_passthrough _ demo_client "pub_1" []
             (Response.mk 200 "[1]" (inr (VList [VInt 1]))) (VList [VInt 1]));
    [reflexivity | reflexivity | simpl; lia | reflexivity].
Defined.

(** ** Success responses that do not decode as expected *)

Section Decoding.

Variable server : Server.
Variable self : Client.

(** A publish call that passes its checks and is answered with a status
    below 400 ends as the decoding of the body of the answer ends. *)
Lemma publish_after_success
    title content frontmatter images file_path dumped log r :
  truthy title = true → truthy content = true →
  isinstance_dict frontmatter = true →
  json_dumps frontmatter = Some dumped →
  server log (request_call self
    (publish_args (publish_fields title content file_path dumped) images))
    = Responds r →
  Response.status_code r < 400 →
  (publish_article server self title content frontmatter images file_path
                   log).1 =
    match response_json r with
    | inl e => inl e
    | inr result =>
        match getitem result "article_id", getitem result "published_id",
              getitem result "web_url",
              get_default result "images" (VDict []),
              getitem result "created_at" with
        | inr a, inr p, inr w, inr i, inr c =>
            inr {| Publish.success := true; Publish.article_id := a;
                   Publish.published_id := p; Publish.web_url := w;
                   Publish.images := i; Publish.created_at := c |}
        | inl e, _, _, _, _ => inl e
        | _, inl e, _, _, _ => inl e
        | _, _, inl e, _, _ => inl e
        | _, _, _, inl e, _ => inl e
        | _, _, _, _, inl e => inl e
        end
    end.
Proof.
  intros Ht Hc Hd Hj Hs Hlt.
  unfold publish_article. rewrite Ht, Hc, Hd. simpl.
  unfold bind, lift, ret. rewrite (publish_data_eq _ _ _ _ _ Hj).
  rewrite (request_success _ _ _ _ _ Hs Hlt).
  destruct (response_json r) as [e|result]; [done|].
  destruct (getitem result "article_id"); [done|].
  destruct (getitem result "published_id"); [done|].
  destruct (getitem result "web_url"); [done|].
  destruct (get_default result "images" (VDict [])); [done|].
  by destruct (getitem result "created_at").
Qed.

Lemma delete_after_success published_id log r :
  server log (request_call self (delete_args published_id)) = Responds r →
  Response.status_code r < 400 →
  (delete_article server self published_id log).1 =
    match response_json r with
    | inl e => inl e
    | inr result =>
        match getitem result "article_id", getitem result "published_id",
              getitem result "deleted_at",
              get_default result "archived" (VBool true) with
        | inr a, inr p, inr d, inr ar =>
            inr {| Delete.success := true; Delete.article_id := a;
                   Delete.published_id := p; Delete.deleted_at := d;
                   Delete.archived := ar |}
        | inl e, _, _, _ => inl e
        | _, inl e, _, _ => inl e
        | _, _, inl e, _ => inl e
        | _, _, _, inl e => inl e
        end
    end.
Proof.
  intros Hs Hlt. unfold delete_article, bind, lift, ret.
  rewrite (request_success _ _ _ _ _ Hs Hlt).
  destruct (response_json r) as [e|result]; [done|].
  destruct (getitem result "article_id"); [done|].
  destruct (getitem result "published_id"); [done|].
  destruct (getitem result "deleted_at"); [done|].
  by destruct (get_default result "archived" (VBool true)).
Qed.

End Decoding.

Lemma first_missing_publish kvs key :
  first_missing publish_keys kvs = Some key →
  match getitem (VDict kvs) "article_id", getitem (VDict kvs) "published_id",
        getitem (VDict kvs) "web_url", getitem (VDict kvs) "created_at" with
  | inl e, _, _, _ => e = KeyError key
  | inr _, inl e, _, _ => e = KeyError key
  | inr _, inr _, inl e, _ => e = KeyError key
  | inr _, inr _, inr _, inl e => e = KeyError key
  | _, _, _, _ => False
  end.
Proof.
  unfold first_missing, publish_keys, getitem. simpl.
  destruct (dict_lookup kvs "article_id"); simpl; [|by intros [= <-]].
  destruct (dict_lookup kvs "published_id"); simpl; [|by intros [= <-]].
  destruct (dict_lookup kvs "web_url"); simpl; [|by intros [= <-]].
  destruct (dict_lookup kvs "created_at"); simpl; [done | by intros [= <-]].
Qed.

Lemma first_missing_delete kvs key :
  first_missing delete_keys kvs = Some key →
  match getitem (VDict kvs) "article_id", getitem (VDict kvs) "published_id",
        getitem (VDict kvs) "deleted_at" with
  | inl e, _, _ => e = KeyError key
  | inr _, inl e, _ => e = KeyError key
  | inr _, inr _, inl e => e = KeyError key
  | _, _, _ => False
  end.
Proof.
  unfold first_missing, delete_keys, getitem. simpl.
  destruct (dict_lookup kvs "article_id"); simpl; [|by intros [= <-]].
  destruct (dict_lookup kvs "published_id"); simpl; [|by intros [= <-]].
  destruct (dict_lookup kvs "deleted_at"); simpl; [done | by intros [= <-]].
Qed.

(** X5.  When a success response (status below 400) carries a body that
    does not decode, publish, fetch and delete let the [JSONDecodeError]
    of [response.json()] through as it is: the caller gets an exception
    of [requests], not an error of this package, and the call has been
    sent. *)
Theorem undecodable_success_body_escapes server self log r text :
  Response.status_code r < 400 →
  Response.json r = inl text →
  (∀ title content frontmatter images file_path dumped,
     truthy title = true → truthy content = true →
     isinstance_dict frontmatter = true →
     json_dumps frontmatter = Some dumped →
     server log (request_call self
       (publish_args (publish_fields title content file_path dumped) images))
       = Responds r →
     publish_article server self title content frontmatter images file_path log =
       (inl (RequestException JSONDecodeError text),
        (log ++ [request_call self
           (publish_args (publish_fields title content file_path dumped)
                         images)])%list)) ∧
  (∀ published_id,
     server log (request_call self (get_args published_id)) = Responds r →
     get_article server self published_id log =
       (inl (RequestException JSONDecodeError text),
        (log ++ [request_call self (get_args published_id)])%list)) ∧
  (∀ published_id,
     server log (request_call self (delete_args published_id)) = Responds r →
     delete_article server self published_id log =
       (inl (RequestException JSONDecodeError text),
        (log ++ [request_call self (delete_args published_id)])%list)) ∧
  error_class (RequestException JSONDecodeError text) = None.
Proof.
  intros Hlt Hjson. repeat split.
  - intros title content frontmatter images file_path dumped Ht Hc Hd Hj Hs.
    apply injective_projections.
    + rewrite (publish_after_success _ _ _ _ _ _ _ _ _ _ Ht Hc Hd Hj Hs Hlt).
      unfold response_json. by rewrite Hjson.
    + by apply publish_log with (dumped := dumped).
  - intros published_id Hs. unfold get_article, bind, lift.
    rewrite (request_success _ _ _ _ _ Hs Hlt).
    unfold response_json. by rewrite Hjson.
  - intros published_id Hs. apply injective_projections.
    + rewrite (delete_after_success _ _ _ _ _ Hs Hlt).
      unfold response_json. by rewrite Hjson.
    + unfold delete_article, bind, lift, ret.
      rewrite (request_success _ _ _ _ _ Hs Hlt).
      unfold response_json. by rewrite Hjson.
Qed.

(** X5 on a fetch answered with an HTML page. *)
Lemma undecodable_success_body_witness :
  get_article (always (Responds html_page)) demo_client "pub_1" [] =
    (inl (RequestException JSONDecodeError
            "Expecting value: line 1 column 1 (char 0)"),
     [request_call demo_client (get_args "pub_1")]).
Proof.
  destruct (undecodable_success_body_escapes (always (Responds html_page))
              demo_client [] html_page
              "Expecting value: line 1 column 1 (char 0)")
    as (_ & Hget & _); [simpl; lia | reflexivity |].
  apply (Hget "pub_1" eq_refl).
Defined.

(** X6.  When a success response carries a JSON object that lacks one of
    the keys the decoder indexes, publish and delete raise [KeyError] for
    the first key missing in reading order (article_id, published_id,
    web_url, created_at for publish; article_id, published_id, deleted_at
    for delete) and return no result, although the call has been
    answered with success. *)
Theorem missing_response_key_raises_KeyError server self log r kvs key :
  Response.status_code r < 400 →
  Response.json r = inr (VDict kvs) →
  (∀ title content frontmatter images file_path dumped,
     truthy title = true → truthy content = true →
     isinstance_dict frontmatter = true →
     json_dumps frontmatter = Some dumped →
     server log (request_call self
       (publish_args (publish_fields title content file_path dumped) images))
       = Responds r →
     first_missing publish_keys kvs = Some key →
     (publish_article server self title content frontmatter images file_path
                      log).1 = inl (KeyError key)) ∧
  (∀ published_id,
     server log (request_call self (delete_args published_id)) = Responds r →
     first_missing delete_keys kvs = Some key →
     (delete_article server self published_id log).1 = inl (KeyError key)).
Proof.
  intros Hlt Hjson. split.
  - intros title content frontmatter images file_path dumped Ht Hc Hd Hj Hs Hm.
    rewrite (publish_after_success _ _ _ _ _ _ _ _ _ _ Ht Hc Hd Hj Hs Hlt).
    unfold response_json. rewrite Hjson.
    apply first_missing_publish in Hm.
    destruct (getitem (VDict kvs) "article_id"); [by subst|].
    destruct (getitem (VDict kvs) "published_id"); [by subst|].
    destruct (getitem (VDict kvs) "web_url"); [by subst|].
    destruct (getitem (VDict kvs) "created_at"); [|done]. subst. done.
  - intros published_id Hs Hm.
    rewrite (delete_after_success _ _ _ _ _ Hs Hlt).
    unfold response_json. rewrite Hjson.
    apply first_missing_delete in Hm.
    destruct (getitem (VDict kvs) "article_id"); [by subst|].
    destruct (getitem (VDict kvs) "published_id"); [by subst|].
    destruct (getitem (VDict kvs) "deleted_at"); [|done]. subst. done.
Qed.

(** X6 on a success body without [published_id], for both operations. *)
Lemma missing_response_key_witness :
  let server := always (Responds (Response.mk 200 "" (inr (VDict partial_body)))) in
  (publish_article server demo_client (VStr "Test Article")
     (VStr "# Test Content") demo_frontmatter ∅ (VStr "/path/to/article.md")
     []).1 = inl (KeyError "published_id") ∧
  (delete_article server demo_client "pub_1" []).1 =
    inl (KeyError "published_id").
Proof.
  cbv zeta.
  destruct (missing_response_key_raises_KeyError
              (always (Responds (Response.mk 200 "" (inr (VDict partial_body)))))
              demo_client [] (Response.mk 200 "" (inr (VDict partial_body)))
              partial_body "published_id")
    as [Hpublish Hdelete]; [simpl; lia | reflexivity |].
  split.
  - apply (Hpublish (VStr "Test Article") (VStr "# Test Content")
             demo_frontmatter ∅ (VStr "/path/to/article.md") demo_dumped);
      reflexivity.
  - apply (Hdelete "pub_1"); reflexivity.
Defined.

(** X7.  When a success response carries JSON that is not an object (an
    array, a string, a number, a boolean, null), publish and delete
    raise [TypeError] from the first [result[key]]. *)
Theorem non_object_success_body_raises_TypeError server self log r body :
  Response.status_code r < 400 →
  Response.json r = inr body →
  isinstance_dict body = false →
  (∀ title content frontmatter images file_path dumped,
     truthy title = true → truthy content = true →
     isinstance_dict frontmatter = true →
     json_dumps frontmatter = Some dumped →
     server log (request_call self
       (publish_args (publish_fields title content file_path dumped) images))
       = Responds r →
     (publish_article server self title content frontmatter images file_path
                      log).1 = inl TypeError) ∧
  (∀ published_id,
     server log (request_call self (delete_args published_id)) = Responds r →
     (delete_article server self published_id log).1 = inl TypeError).
Proof.
  intros Hlt Hjson Hbody. split.
  - intros title content frontmatter images file_path dumped Ht Hc Hd Hj Hs.
    rewrite (publish_after_success _ _ _ _ _ _ _ _ _ _ Ht Hc Hd Hj Hs Hlt).
    unfold response_json. rewrite Hjson. by destruct body.
  - intros published_id Hs.
    rewrite (delete_after_success _ _ _ _ _ Hs Hlt).
    unfold response_json. rewrite Hjson. by destruct body.
Qed.

(** X7 on a delete answered with [null]. *)
Lemma non_object_success_body_witness :
  (delete_article (always (Responds (Response.mk 200 "null" (inr VNone))))
                  demo_client "pub_1" []).1 = inl TypeError.
Proof.
  destruct (non_object_success_body_raises_TypeError
              (always (Responds (Response.mk 200 "null" (inr VNone))))
              demo_client [] (Response.mk 200 "null" (inr VNone)) VNone)
    as [_ Hdelete]; [simpl; lia | reflexivity | reflexivity |].
  apply (Hdelete "pub_1"). reflexivity.
Defined.

(** X8.  The optional keys are taken as the body has them: when the
    success object of a publish has an [images] entry the result carries
    that value, and when the success object of a delete has an [archived]
    entry the result carries that value, whatever its type, instead of
    the default. *)
Theorem optional_keys_pass_through server self log r kvs :
  Response.status_code r < 400 →
  Response.json r = inr (VDict kvs) →
  (∀ title content frontmatter images file_path dumped uploaded,
     truthy title = true → truthy content = true →
     isinstance_dict frontmatter = true →
     json_dumps frontmatter = Some dumped →
     server log (request_call self
       (publish_args (publish_fields title content file_path dumped) images))
       = Responds r →
     first_missing publish_keys kvs = None →
     dict_lookup kvs "images" = Some uploaded →
     ∃ result,
       (publish_article server self title content frontmatter images file_path
                        log).1 = inr result ∧
       Publish.images result = uploaded) ∧
  (∀ published_id flag,
     server log (request_call self (delete_args published_id)) = Responds r →
     first_missing delete_keys kvs = None →
     dict_lookup kvs "archived" = Some flag →
     ∃ result,
       (delete_article server self published_id log).1 = inr result ∧
       Delete.archived result = flag).
Proof.
  intros Hlt Hjson. split.
  - intros title content frontmatter images file_path dumped uploaded
      Ht Hc Hd Hj Hs Hm Himg.
    rewrite (publish_after_success _ _ _ _ _ _ _ _ _ _ Ht Hc Hd Hj Hs Hlt).
    unfold response_json. rewrite Hjson.
    unfold first_missing, publish_keys in Hm. unfold getitem, get_default.
    simpl in *. rewrite Himg.
    destruct (dict_lookup kvs "article_id"); simpl in *; [|done].
    destruct (dict_lookup kvs "published_id"); simpl in *; [|done].
    destruct (dict_lookup kvs "web_url"); simpl in *; [|done].
    destruct (dict_lookup kvs "created_at"); simpl in *; [|done].
    eauto.
  - intros published_id flag Hs Hm Hflag.
    rewrite (delete_after_success _ _ _ _ _ Hs Hlt).
    unfold response_json. rewrite Hjson.
    unfold first_missing, delete_keys in Hm. unfold getitem, get_default.
    simpl in *. rewrite Hflag.
    destruct (dict_lookup kvs "article_id"); simpl in *; [|done].
    destruct (dict_lookup kvs "published_id"); simpl in *; [|done].
    destruct (dict_lookup kvs "deleted_at"); simpl in *; [|done].
    eauto.
Qed.

(** X8 on a delete whose answer says [archived: false]. *)
Lemma optional_keys_witness :
  ∃ result,
    (delete_article
       (always (Responds (Response.mk 200 "" (inr (VDict hard_delete_body)))))
       demo_client "pub_456def" []).1 = inr result ∧
    Delete.archived result = VBool false.
Proof.
  destruct (optional_keys_pass_through
              (always (Responds (Response.mk 200 "" (inr (VDict hard_delete_body)))))
              demo_client []
              (Response.mk 200 "" (inr (VDict hard_delete_body)))
              hard_delete_body)
    as [_ Hdelete]; [simpl; lia | reflexivity |].
  apply (Hdelete "pub_456def" (VBool false)); reflexivity.
Defined.

(** ** Error messages *)

Lemma append_nil_r (s : string) : s +:+ "" = s.
Proof.
  induction s as [|c s IH]; [done|].
  change (String c s +:+ "") with (String c (s +:+ "")). by rewrite IH.
Qed.

(** X9.  For a status of 400 or more, with a body that is an object or
    does not decode, the message of the raised error contains the detail
    of the response: the raw text when the body does not decode, the
    [error] entry of the body when it has one, [HTTP <code>] otherwise.
    The one exception is 429, whose message is fixed and ignores the
    body. *)
Theorem error_message_carries_detail r :
  400 ≤ Response.status_code r →
  object_or_undecodable r = true →
  ∃ message,
    _handle_response_errors r =
      inl (Raised (table_kind (Response.status_code r)) message
                  (Some (Response.status_code r)) (Some (error_payload r))) ∧
    if Response.status_code r =? 429
    then message = "Rate limit exceeded. Please try again later."
    else ∃ before after, message = before +:+ error_detail r +:+ after.
Proof.
  destruct r as [code text body].
  unfold _handle_response_errors, table_kind, object_or_undecodable,
    error_payload, error_detail, response_json.
  simpl. intros Hge Hbody.
  destruct (Z.ltb_spec code 400) as [Hlt|_]; [lia|].
  destruct body as [t|[]]; try discriminate; simpl;
    split_code code; simpl; try lia;
    (eexists; split; [reflexivity|]);
    first [ reflexivity
          | by eexists _, _
          | eexists _, ""; by rewrite append_nil_r ].
Qed.

(** X9 on a 404 without an [error] entry. *)
Lemma error_message_witness :
  ∃ message,
    _handle_response_errors (Response.mk 404 "{}" (inr (VDict []))) =
      inl (Raised NotFoundError message (Some 404) (Some (VDict []))) ∧
    ∃ before after, message = before +:+ "HTTP 404" +:+ after.
Proof.
  apply (error_message_carries_detail (Response.mk 404 "{}" (inr (VDict []))));
    [simpl; lia | reflexivity].
Defined.

(** ** Construction, further *)

Lemma verify_authentication_ok server self log :
  (_verify_authentication server self log).1 = inr () ↔
  ∃ r, server log (request_call self verify_args) = Responds r ∧
       Response.status_code r = 200.
Proof.
  unfold _verify_authentication, try_except, bind, ret, raise.
  destruct (_request server self verify_args log) as [[e|r] log'] eqn:Hreq.
  - split.
    + destruct e as [| cls text | | |]; discriminate.
    + intros (r & Hs & H200).
      rewrite (request_success _ _ _ _ _ Hs) in Hreq by lia. discriminate.
  - assert ((_request server self verify_args log).1 = inr r) as Hfst
      by (by rewrite Hreq).
    apply request_returns_iff in Hfst as [Hs Hlt].
    destruct (Z.eqb_spec (Response.status_code r) 200) as [H200|Hne]; simpl.
    + split; [eauto | done].
    + split; [discriminate|]. intros (r' & Hs' & H200). congruence.
Qed.

Lemma init_returns server api_key api_url verify_ssl log c :
  (__init__ server api_key api_url verify_ssl log).1 = inr c ↔
  ∃ key r,
    api_key = VStr key ∧ startswith key "sk_" = true ∧
    server log (request_call (new_client key api_url verify_ssl) verify_args)
      = Responds r ∧
    Response.status_code r = 200 ∧
    c = new_client key api_url verify_ssl.
Proof.
  split.
  - unfold __init__, raise.
    destruct (negb (truthy api_key) || negb (isinstance_str api_key));
      [discriminate|].
    destruct api_key as [| | |key| | |]; try discriminate.
    destruct (startswith key "sk_") eqn:Hkey; [|discriminate]. simpl.
    unfold bind, ret.
    destruct (_verify_authentication _ _ log) as [[e|[]] log'] eqn:Hv;
      [discriminate|].
    intros [= <-].
    assert ((_verify_authentication server
               (new_client key api_url verify_ssl) log).1 = inr ()) as Hok
      by (by rewrite Hv).
    apply verify_authentication_ok in Hok as (r & Hs & H200).
    exists key, r. done.
  - intros (key & r & -> & Hkey & Hs & H200 & ->).
    by rewrite (init_probe_ok _ _ _ _ Hkey _ _ Hs H200).
Qed.

(** X10.  Construction returns a client exactly when the credential is a
    string starting with [sk_] and the probe is answered with status
    200; no other status, not even another success status, yields a
    client. *)
Theorem construction_succeeds_iff server api_key api_url verify_ssl log :
  (∃ c, (__init__ server api_key api_url verify_ssl log).1 = inr c) ↔
  ∃ key r,
    api_key = VStr key ∧ startswith key "sk_" = true ∧
    server log (request_call (new_client key api_url verify_ssl) verify_args)
      = Responds r ∧
    Response.status_code r = 200.
Proof.
  split.
  - intros [c Hc]. apply init_returns in Hc
      as (key & r & ? & ? & ? & ? & _). eauto 6.
  - intros (key & r & Hk & Hpre & Hs & H200).
    exists (new_client key api_url verify_ssl). apply init_returns. eauto 8.
Qed.

Lemma rstrip_slash_no_trailing s s' : rstrip_slash s ≠ s' +:+ "/".
Proof.
  revert s'. induction s as [|c s IH]; intros s' Heq.
  - destruct s'; discriminate.
  - simpl in Heq. destruct (rstrip_slash s) as [|d r] eqn:Hr.
    + destruct (Ascii.eqb_spec c "/"%char) as [->|Hne].
      * destruct s'; discriminate.
      * destruct s' as [|c' s'']; [injection Heq as ->; done|].
        injection Heq as _ Heq. destruct s''; discriminate.
    + destruct s' as [|c' s'']; [discriminate|].
      injection Heq as _ Heq. by apply (IH s'').
Qed.

Lemma rstrip_slash_only_slashes s :
  ∃ n, s = rstrip_slash s +:+ string_of_list_ascii (replicate n "/"%char).
Proof.
  induction s as [|c s [n IH]]; [by exists 0%nat|].
  simpl. destruct (rstrip_slash s) as [|d r] eqn:Hr.
  - destruct (Ascii.eqb_spec c "/"%char) as [->|Hne].
    + exists (S n). simpl. by rewrite IH at 1.
    + exists n. by rewrite IH at 1.
  - exists n. by rewrite IH at 1.
Qed.

(** X11.  Every client that construction returns holds a key that
    starts with [sk_], a base URL that is the given one without its
    trailing slashes (so it never ends in a slash), the TLS flag as
    given, and the three headers, among them [Authorization: Bearer
    <key>]. *)
Theorem constructed_client_invariant server credential base_url tls log c :
  (__init__ server credential base_url tls log).1 = inr c →
  credential = VStr (api_key c) ∧
  startswith (api_key c) "sk_" = true ∧
  (∀ s, api_url c ≠ s +:+ "/") ∧
  (∃ n, base_url =
        api_url c +:+ string_of_list_ascii (replicate n "/"%char)) ∧
  verify_ssl c = tls ∧
  headers c = [("Authorization", "Bearer " +:+ api_key c);
               ("User-Agent", "BugBountyKSP-SDK/1.0");
               ("Accept", "application/json")].
Proof.
  intros Hc. apply init_returns in Hc as (key & r & -> & Hkey & _ & _ & ->).
  simpl. repeat split; try done.
  - intros s. apply rstrip_slash_no_trailing.
  - apply rstrip_slash_only_slashes.
Qed.

(** X11 on a client built for a base URL with two trailing slashes. *)
Lemma constructed_client_witness :
  ∃ c,
    (__init__ (always (Responds probe_ok)) (VStr "sk_test_123456789")
              "https://staging.api.example.com//" true []).1 = inr c ∧
    api_url c = "https://staging.api.example.com" ∧
    startswith (api_key c) "sk_" = true.
Proof.
  eexists. split; [vm_compute; reflexivity|].
  split; [reflexivity|].
  apply (constructed_client_invariant (always (Responds probe_ok))
           (VStr "sk_test_123456789") "https://staging.api.example.com//"
           true []).
  vm_compute. reflexivity.
Defined.

(** ** Publishing, further *)

(** X12.  The frontmatter is serialised before anything is sent: when
    [json.dumps] cannot serialise it (it holds bytes), a publish call
    that passed the checks on title, content and frontmatter fails with
    [TypeError] and leaves the log of transport calls as it was. *)
Theorem unserialisable_frontmatter_fails_before_network
    server self title content frontmatter images file_path log :
  truthy title = true →
  truthy content = true →
  isinstance_dict frontmatter = true →
  json_dumps frontmatter = None →
  publish_article server self title content frontmatter images file_path log =
    (inl TypeError, log).
Proof.
  intros Ht Hc Hd Hj. unfold publish_article. rewrite Ht, Hc, Hd. simpl.
  unfold bind, lift, publish_data. by rewrite Hj.
Qed.

(** X12 on a frontmatter with a [bytes] value. *)
Lemma unserialisable_frontmatter_witness :
  publish_article (always (Responds publish_ok)) demo_client
    (VStr "Test") (VStr "# Test") (VDict [("cover", VBytes png1)])
    demo_images (VStr "/path") [] = (inl TypeError, []).
Proof.
  apply unserialisable_frontmatter_fails_before_network; reflexivity.
Defined.

(** ** What every call carries *)

Lemma verify_authentication_log server self log :
  (_verify_authentication server self log).2 =
    (log ++ [request_call self verify_args])%list.
Proof.
  unfold _verify_authentication, try_except, bind, ret, raise.
  pose proof (request_log server self verify_args log) as Hlog.
  destruct (_request _ _ _ _) as [[e|response] log']; simpl in *; subst log'.
  - by destruct e.
  - by destruct (negb _).
Qed.


Lemma request_call_settings self a :
  carries_settings self (Args.timeout a) (request_call self a).
Proof.
  unfold carries_settings, request_call.
  destruct (files_truthy (Args.files a)); simpl; eauto.
Qed.

(** X13.  Every transport call that publish, fetch or delete makes for
    a client carries the headers of that client (so the bearer
    credential), its TLS flag, the default timeout of 30 and a URL under
    its base URL; the probe of construction carries the same for the
    client being built, with its own timeout of 5. *)
Theorem calls_carry_client_settings server :
  (∀ key base_url tls log,
     ∃ calls,
       (__init__ server (VStr key) base_url tls log).2 = (log ++ calls)%list ∧
       Forall (carries_settings (new_client key base_url tls) 5) calls) ∧
  (∀ self title content frontmatter images file_path log,
     ∃ calls,
       (publish_article server self title content frontmatter images file_path
                        log).2 = (log ++ calls)%list ∧
       Forall (carries_settings self 30) calls) ∧
  (∀ self published_id log,
     ∃ calls,
       (get_article server self published_id log).2 = (log ++ calls)%list ∧
       Forall (carries_settings self 30) calls) ∧
  (∀ self published_id log,
     ∃ calls,
       (delete_article server self published_id log).2 = (log ++ calls)%list ∧
       Forall (carries_settings self 30) calls).
Proof.
  assert (∀ self timeout (log : list Call.t),
            ∃ calls, log = (log ++ calls)%list ∧
                     Forall (carries_settings self timeout) calls) as Hnone.
  { intros self timeout log. exists []. by rewrite app_nil_r. }
  assert (∀ self a (log : list Call.t),
            ∃ calls, (log ++ [request_call self a])%list = (log ++ calls)%list ∧
                     Forall (carries_settings self (Args.timeout a)) calls)
    as Hone.
  { intros self a log. exists [request_call self a]. split; [done|].
    repeat constructor; apply request_call_settings. }
  repeat split.
  - intros key base_url tls log. unfold __init__, raise.
    destruct (negb (truthy (VStr key)) || negb (isinstance_str (VStr key)));
      [apply Hnone|].
    destruct (negb (startswith key "sk_")); [apply Hnone|].
    unfold bind, ret.
    pose proof (verify_authentication_log server
                  (new_client key base_url tls) log) as Hlog.
    destruct (_verify_authentication _ _ _) as [[e|[]] log'];
      simpl in *; subst log'; apply (Hone _ verify_args).
  - intros self title content frontmatter images file_path log.
    unfold publish_article, raise, bind, lift, ret.
    destruct (negb (truthy title) || negb (truthy content)); [apply Hnone|].
    destruct (negb (isinstance_dict frontmatter)); [apply Hnone|].
    destruct (publish_data _ _ _ _) as [e|data]; [apply Hnone|].
    pose proof (request_log server self (publish_args data images) log) as Hlog.
    destruct (_request _ _ _ _) as [[e|response] log']; simpl in *; subst log';
      step_decoding; apply (Hone _ (publish_args data images)).
  - intros self published_id log. unfold get_article, bind, lift.
    pose proof (request_log server self (get_args published_id) log) as Hlog.
    destruct (_request _ _ _ _) as [[e|response] log']; simpl in *; subst log';
      apply (Hone _ (get_args published_id)).
  - intros self published_id log. unfold delete_article, bind, lift, ret.
    pose proof (request_log server self (delete_args published_id) log) as Hlog.
    destruct (_request _ _ _ _) as [[e|response] log']; simpl in *; subst log';
      step_decoding; apply (Hone _ (delete_args published_id)).
Qed.

(** * The key generator *)

(** ** Strings and their characters *)

Lemma append_cons c (s t : string) : String c s +:+ t = String c (s +:+ t).
Proof. reflexivity. Qed.

Lemma length_of_list l : String.length (string_of_list_ascii l) = length l.
Proof. induction l as [|c l IH]; simpl; [done | by rewrite IH]. Qed.

Lemma length_to_list s : length (list_ascii_of_string s) = String.length s.
Proof. induction s as [|c s IH]; simpl; [done | by rewrite IH]. Qed.

Lemma to_list_append (s t : string) :
  list_ascii_of_string (s +:+ t) =
    (list_ascii_of_string s ++ list_ascii_of_string t)%list.
Proof.
  induction s as [|c s IH]; [done|].
  rewrite append_cons. simpl. by rewrite IH.
Qed.

Lemma len_append (s t : string) : len (s +:+ t) = len s + len t.
Proof. unfold len. rewrite length_append. lia. Qed.

Lemma len_nonneg s : 0 ≤ len s.
Proof. unfold len. lia. Qed.

Lemma truthy_str s : truthy (VStr s) = negb (bool_decide (len s = 0)).
Proof. by destruct s. Qed.

(** [s[n:]] drops the first [n] characters when [0 ≤ n ≤ len(s)]. *)
Lemma slice_from_drop s n :
  0 ≤ n ≤ len s →
  slice_from s n =
    string_of_list_ascii (drop (Z.to_nat n) (list_ascii_of_string s)).
Proof.
  intros Hn. unfold slice_from.
  destruct (Z.ltb_spec n 0); [lia|]. by rewrite Z.min_l by lia.
Qed.

(** [s[-v:]] keeps the last [v] characters when [0 < v ≤ len(s)]. *)
Lemma slice_from_last s v :
  0 < v ≤ len s →
  slice_from s (- v) =
    string_of_list_ascii
      (drop (Z.to_nat (len s - v)) (list_ascii_of_string s)).
Proof.
  intros Hv. unfold slice_from.
  destruct (Z.ltb_spec (- v) 0); [|lia].
  rewrite Z.max_r by lia. do 2 f_equal. lia.
Qed.

Lemma slice_from_append (p s : string) : slice_from (p +:+ s) (len p) = s.
Proof.
  rewrite slice_from_drop
    by (rewrite len_append; pose proof (len_nonneg s);
        pose proof (len_nonneg p); lia).
  rewrite to_list_append. unfold len. rewrite Nat2Z.id, <- length_to_list.
  rewrite drop_app_length. apply string_of_list_ascii_of_string.
Qed.

Lemma len_repeat_char c n : len (repeat_char c n) = Z.max 0 n.
Proof.
  unfold len, repeat_char. rewrite length_of_list, length_replicate. lia.
Qed.

Lemma prefix_append (p s : string) :
  String.prefix p s = true ↔ ∃ rest, s = p +:+ rest.
Proof.
  revert s. induction p as [|a p IH]; intros s.
  - destruct s; simpl; split; eauto.
  - destruct s as [|b s]; simpl; [split; [done | by intros [? ?]]|].
    destruct (Ascii.ascii_dec a b) as [->|Hne].
    + rewrite IH. split; intros [rest Hr]; exists rest.
      * by rewrite append_cons, Hr.
      * rewrite append_cons in Hr. by injection Hr.
    + split; [done|]. intros [rest Hr]. rewrite append_cons in Hr.
      injection Hr as -> _. done.
Qed.

(** ** The format check *)

(** What [is_valid_format] accepts: [sk_] followed by at least eight
    characters, all alphanumeric. *)
Lemma is_valid_format_spec key :
  is_valid_format key = true ↔
  ∃ random_part,
    key = VStr ("sk_" +:+ random_part) ∧
    (8 ≤ String.length random_part)%nat ∧
    forallb isalnum (list_ascii_of_string random_part) = true.
Proof.
  split.
  - destruct key as [| | |key| | |]; try discriminate. unfold is_valid_format.
    destruct (negb (truthy (VStr key))); [discriminate|].
    destruct (startswith key PREFIX) eqn:Hpre; [|discriminate].
    apply prefix_append in Hpre as [r ->]. simpl negb.
    rewrite slice_from_append.
    destruct (Z.ltb_spec (len (PREFIX +:+ r)) (len PREFIX + 8)) as [|Hlen];
      [discriminate|].
    destruct (forallb isalnum (list_ascii_of_string r)) eqn:Hall;
      [|discriminate].
    intros _. exists r. repeat split; [|done].
    rewrite len_append in Hlen. unfold len in Hlen. lia.
  - intros (r & -> & Hlen & Hall). unfold is_valid_format.
    change ("sk_" +:+ r) with (PREFIX +:+ r).
    assert (truthy (VStr (PREFIX +:+ r)) = true) as -> by reflexivity.
    assert (startswith (PREFIX +:+ r) PREFIX = true) as ->
      by (apply prefix_append; eauto).
    simpl negb. rewrite slice_from_append, Hall.
    destruct (Z.ltb_spec (len (PREFIX +:+ r)) (len PREFIX + 8)) as [Hlt|_].
    { rewrite len_append in Hlt. unfold len in Hlt. lia. }
    done.
Qed.

(** X14.  [is_valid_format] accepts exactly the strings made of [sk_]
    and at least eight further characters that are all alphanumeric;
    everything that is not a string is rejected. *)
Theorem valid_format_characterisation key :
  is_valid_format key = true ↔
  ∃ random_part,
    key = VStr ("sk_" +:+ random_part) ∧
    (8 ≤ String.length random_part)%nat ∧
    forallb isalnum (list_ascii_of_string random_part) = true.
Proof. exact (is_valid_format_spec key). Qed.

(** ** Generated keys *)

Lemma choice_in_charset draw : secrets_choice CHARSET draw ∈ CHARSET.
Proof.
  unfold secrets_choice. apply list_elem_of_In, nth_In.
  apply Nat.mod_upper_bound. discriminate.
Qed.

Lemma charset_alnum c : c ∈ CHARSET → isalnum c = true.
Proof.
  intros Hc. apply list_elem_of_In in Hc. revert c Hc.
  apply forallb_forall. reflexivity.
Qed.

Lemma generate_parts test draws :
  ∃ random_part,
    generate test draws =
      (if test then TEST_PREFIX else PREFIX) +:+ random_part ∧
    String.length random_part = KEY_LENGTH ∧
    Forall (λ c, c ∈ CHARSET) (list_ascii_of_string random_part).
Proof.
  eexists. split; [reflexivity|]. split.
  - by rewrite length_of_list, length_map, length_seq.
  - rewrite list_ascii_of_string_of_list_ascii. apply Forall_map, Forall_forall.
    intros i _. apply choice_in_charset.
Qed.

Lemma forallb_alnum_charset (s : string) :
  Forall (λ c, c ∈ CHARSET) (list_ascii_of_string s) →
  forallb isalnum (list_ascii_of_string s) = true.
Proof.
  intros Hall. apply forallb_forall. intros c Hc.
  apply list_elem_of_In in Hc. rewrite Forall_forall in Hall.
  by apply charset_alnum, Hall.
Qed.

(** X15.  A generated key is its prefix ([sk_test_] for a test key,
    [sk_] otherwise) followed by exactly 32 characters, each an ASCII
    letter or digit of the charset; so a test key is 40 characters long
    and a production key 35. *)
Theorem generated_key_shape test draws :
  ∃ random_part,
    generate test draws =
      (if test then "sk_test_" else "sk_") +:+ random_part ∧
    String.length random_part = 32%nat ∧
    Forall (λ c, c ∈ CHARSET) (list_ascii_of_string random_part) ∧
    len (generate test draws) = (if test then 40 else 35).
Proof.
  destruct (generate_parts test draws) as (r & Hgen & Hlen & Hall).
  exists r. repeat split; try done.
  rewrite Hgen, len_append. unfold len. rewrite Hlen. by destruct test.
Qed.

(** What follows [sk_] in a key that starts with [sk_test_] is not
    alphanumeric. *)
Lemma test_prefix_not_alnum r r' :
  VStr (TEST_PREFIX +:+ r) = VStr ("sk_" +:+ r') →
  forallb isalnum (list_ascii_of_string r') = true → False.
Proof.
  intros Heq Halnum.
  assert (TEST_PREFIX +:+ r = "sk_" +:+ r') as Heq' by congruence.
  change (TEST_PREFIX +:+ r) with ("sk_" +:+ ("test_" +:+ r)) in Heq'.
  apply (inj (String.app "sk_")) in Heq'. subst r'.
  rewrite to_list_append in Halnum. simpl in Halnum. discriminate.
Qed.

(** X16.  The strict format check accepts every generated production
    key and rejects every generated test key: after [sk_] a test key goes
    on with [test_], and the underscore is not alphanumeric. *)
Theorem generated_keys_and_format_check draws :
  is_valid_format (VStr (generate false draws)) = true ∧
  is_valid_format (VStr (generate true draws)) = false.
Proof.
  split.
  - destruct (generate_parts false draws) as (r & -> & Hlen & Hall).
    apply is_valid_format_spec. exists r. split; [done|].
    split; [rewrite Hlen; unfold KEY_LENGTH; lia|].
    by apply forallb_alnum_charset.
  - destruct (generate_parts true draws) as (r & -> & Hlen & Hall).
    destruct (is_valid_format _) eqn:Hvalid; [|done].
    apply is_valid_format_spec in Hvalid as (r' & Heq & _ & Halnum).
    by destruct (test_prefix_not_alnum r r').
Qed.

(** X17.  [get_key_info] never reports the environment [test]: a key
    that passes the format check cannot start with [sk_test_], so a
    valid key is always reported as [production], and an invalid key
    gets no environment entry, type [invalid] and no prefix. *)
Theorem key_info_environment key now :
  let info := dict_items (get_key_info key now) in
  dict_lookup info "is_valid" = Some (VBool (is_valid_format (VStr key))) ∧
  dict_lookup info "length" = Some (VInt (len key)) ∧
  dict_lookup info "environment" ≠ Some (VStr "test") ∧
  (if is_valid_format (VStr key)
   then dict_lookup info "environment" = Some (VStr "production") ∧
        dict_lookup info "type" = Some (VStr "secret_key") ∧
        dict_lookup info "prefix" = Some (VStr "sk_")
   else dict_lookup info "environment" = None ∧
        dict_lookup info "type" = Some (VStr "invalid") ∧
        dict_lookup info "prefix" = Some VNone).
Proof.
  cbv zeta. unfold get_key_info.
  destruct (is_valid_format (VStr key)) eqn:Hvalid; simpl;
    [|by repeat split].
  assert (startswith key TEST_PREFIX = false) as ->; [|by repeat split].
  destruct (startswith key TEST_PREFIX) eqn:Htest; [|done].
  apply prefix_append in Htest as [r ->].
  apply is_valid_format_spec in Hvalid as (r' & Heq & _ & Halnum).
  by destruct (test_prefix_not_alnum r r').
Qed.

(** ** The three checks on a key *)

(** A key with the prefix gets as far as the probe. *)
Lemma init_sends_probe server key base_url tls log :
  startswith key "sk_" = true →
  (__init__ server (VStr key) base_url tls log).2 =
    (log ++ [request_call (new_client key base_url tls) verify_args])%list.
Proof.
  intros Hkey. rewrite init_runs_probe by done.
  pose proof (verify_authentication_log server (new_client key base_url tls) log)
    as Hlog.
  by destruct (_verify_authentication _ _ _) as [[e|[]] log'].
Qed.

Lemma validate_api_key_spec key :
  validate_api_key key = true ↔
  ∃ k, key = VStr k ∧ startswith k "sk_" = true ∧ 10 < len k.
Proof.
  unfold validate_api_key. split.
  - destruct (negb (truthy key) || negb (isinstance_str key)); [discriminate|].
    destruct key as [| | |k| | |]; try discriminate.
    intros [Hpre Hlen]%andb_true_iff. exists k.
    repeat split; [done|]. by apply Z.ltb_lt.
  - intros (k & -> & Hpre & Hlen).
    assert (truthy (VStr k) = true) as -> by (by apply startswith_truthy).
    simpl. rewrite Hpre. by apply Z.ltb_lt.
Qed.

(** X18.  The three checks on a key are nested.  A key that the strict
    format check accepts is accepted by [validate_api_key] as well; a key
    that [validate_api_key] accepts passes the checks of the client,
    which goes on to send the probe.  The validator takes any
    characters after the prefix once there are more than seven, and the
    client takes the prefix followed by anything, of any length. *)
Theorem key_checks_are_nested :
  (∀ key, is_valid_format key = true → validate_api_key key = true) ∧
  (∀ key, validate_api_key key = true →
     ∃ k, key = VStr k ∧
          ∀ server base_url tls log,
            (__init__ server key base_url tls log).2 =
              (log ++ [request_call (new_client k base_url tls)
                                    verify_args])%list) ∧
  (∀ k, 7 < len k → validate_api_key (VStr ("sk_" +:+ k)) = true) ∧
  (∀ k server base_url tls log,
     (__init__ server (VStr ("sk_" +:+ k)) base_url tls log).2 =
       (log ++ [request_call (new_client ("sk_" +:+ k) base_url tls)
                             verify_args])%list).
Proof.
  repeat split.
  - intros key (r & -> & Hlen & _)%is_valid_format_spec.
    apply validate_api_key_spec. exists ("sk_" +:+ r).
    split; [done|]. split; [apply prefix_append; eauto|].
    rewrite len_append. unfold len. simpl. lia.
  - intros key (k & -> & Hpre & _)%validate_api_key_spec.
    exists k. split; [done|]. intros. by apply init_sends_probe.
  - intros k Hlen. apply validate_api_key_spec. exists ("sk_" +:+ k).
    split; [done|]. split; [apply prefix_append; eauto|].
    rewrite len_append. pose proof (len_nonneg "sk_"). unfold len at 1.
    simpl. lia.
  - intros. apply init_sends_probe. apply prefix_append. eauto.
Qed.

(** X18 on a key with a dash, which only the strict check rejects, and
    on [sk_abc], which only the client accepts. *)
Lemma key_checks_witness :
  is_valid_format (VStr "sk_live-key-0001") = false ∧
  validate_api_key (VStr "sk_live-key-0001") = true ∧
  validate_api_key (VStr "sk_abc") = false ∧
  (__init__ (always (Responds probe_ok)) (VStr "sk_abc") DEFAULT_API_URL true
            []).2 =
    [request_call (new_client "sk_abc" DEFAULT_API_URL true) verify_args].
Proof.
  destruct key_checks_are_nested as (_ & _ & Hloose & Hclient).
  split; [reflexivity|]. split; [|split; [reflexivity|]].
  - apply (Hloose "live-key-0001"). reflexivity.
  - apply (Hclient "abc" (always (Responds probe_ok)) DEFAULT_API_URL true []).
Defined.

Lemma generated_key_validates test draws :
  validate_api_key (VStr (generate test draws)) = true.
Proof.
  destruct (generate_parts test draws) as (r & Hgen & Hlen & _).
  apply validate_api_key_spec. eexists. split; [done|]. split.
  - rewrite Hgen. apply prefix_append.
    destruct test; [exists ("test_" +:+ r) | exists r]; reflexivity.
  - rewrite Hgen, len_append. unfold len. rewrite Hlen. unfold KEY_LENGTH.
    destruct test; simpl; lia.
Qed.

(** X19.  Every generated key, test or production, is accepted by
    [validate_api_key] and by the client: when the probe is answered
    with 200, construction returns a client that holds the key. *)
Theorem generated_key_is_accepted test draws :
  validate_api_key (VStr (generate test draws)) = true ∧
  ∀ server base_url tls log r,
    server log (request_call (new_client (generate test draws) base_url tls)
                             verify_args) = Responds r →
    Response.status_code r = 200 →
    (__init__ server (VStr (generate test draws)) base_url tls log).1 =
      inr (new_client (generate test draws) base_url tls).
Proof.
  destruct (generate_parts test draws) as (r & Hgen & Hlen & _).
  assert (startswith (generate test draws) "sk_" = true) as Hpre.
  { rewrite Hgen. apply prefix_append.
    destruct test; [exists ("test_" +:+ r) | exists r]; reflexivity. }
  split.
  - apply validate_api_key_spec. eexists. split; [done|]. split; [done|].
    rewrite Hgen, len_append. unfold len. rewrite Hlen. unfold KEY_LENGTH.
    destruct test; simpl; lia.
  - intros server base_url tls log r' Hs H200.
    by rewrite (init_probe_ok _ _ _ _ Hpre _ _ Hs H200).
Qed.

(** X19 on a test key and a server that answers the probe with 200. *)
Lemma generated_key_witness :
  (__init__ (always (Responds probe_ok)) (VStr (generate true (λ i, i)))
            DEFAULT_API_URL true []).1 =
    inr (new_client (generate true (λ i, i)) DEFAULT_API_URL true).
Proof.
  destruct (generated_key_is_accepted true (λ i, i)) as [_ Hinit].
  apply (Hinit (always (Responds probe_ok)) DEFAULT_API_URL true [] probe_ok);
    reflexivity.
Defined.

(** ** Masking *)

Lemma mask_key_long key visible_chars :
  0 < len key →
  3 + visible_chars < len key →
  mask_key key visible_chars =
    "sk_" +:+ repeat_char "*" (len key - 3 - visible_chars)
          +:+ slice_from key (- visible_chars).
Proof.
  intros Hpos Hlong. unfold mask_key.
  rewrite truthy_str, bool_decide_eq_false_2 by lia. simpl negb. cbv iota.
  destruct (Z.leb_spec (len key) visible_chars) as [Hle|_].
  { destruct (Z.leb_spec (len key) (len PREFIX + visible_chars)) as [?|?];
      change (len PREFIX) with 3 in *; lia. }
  destruct (Z.leb_spec (len key) (len PREFIX + visible_chars)) as [Hle|_];
    [change (len PREFIX) with 3 in *; lia | done].
Qed.

(** X20.  With at least one visible character, masking keeps the length
    of the key: the mask of a key is as long as the key, whichever of
    the four cases applies; the mask of the empty key is empty. *)
Theorem mask_key_keeps_length key visible_chars :
  1 ≤ visible_chars →
  len (mask_key key visible_chars) = len key.
Proof.
  intros Hv. pose proof (len_nonneg key) as Hnn.
  destruct (decide (len key = 0)) as [H0|Hne].
  { unfold mask_key. rewrite truthy_str, bool_decide_eq_true_2 by done.
    simpl. rewrite H0. reflexivity. }
  destruct (Z.le_gt_cases (len key) (3 + visible_chars)) as [Hshort|Hlong].
  - unfold mask_key.
    rewrite truthy_str, bool_decide_eq_false_2 by done. simpl negb. cbv iota.
    destruct (Z.leb_spec (len key) visible_chars).
    + rewrite len_repeat_char. lia.
    + destruct (Z.leb_spec (len key) (len PREFIX + visible_chars)) as [|Hgt];
        [done|]. change (len PREFIX) with 3 in Hgt. lia.
  - rewrite mask_key_long by lia. rewrite !len_append, len_repeat_char.
    rewrite slice_from_last by lia. unfold len at 3.
    rewrite length_of_list, length_drop, length_to_list.
    change (len "sk_") with 3. unfold len in *. lia.
Qed.

Lemma mask_key_keeps_length_witness :
  len (mask_key "sk_test_abcd1234efgh5678ijkl9012mnop3456" 4) = 40.
Proof.
  apply (mask_key_keeps_length "sk_test_abcd1234efgh5678ijkl9012mnop3456" 4).
  lia.
Defined.

(** X21.  The mask of a key longer than the prefix and the visible
    characters depends on the key through its length and its last
    visible characters only: two keys of one length that end alike have
    the same mask, so nothing of the hidden part (and nothing of what the
    key has in place of the prefix) shows. *)
Theorem mask_key_hides_the_rest key1 key2 visible_chars :
  1 ≤ visible_chars →
  len key1 = len key2 →
  3 + visible_chars < len key1 →
  slice_from key1 (- visible_chars) = slice_from key2 (- visible_chars) →
  mask_key key1 visible_chars = mask_key key2 visible_chars.
Proof.
  intros Hv Hlen Hlong Hend.
  rewrite !mask_key_long by lia. by rewrite Hlen, Hend.
Qed.

Lemma mask_key_hides_witness :
  mask_key "sk_test_abcd1234efgh5678ijkl9012mnop3456" 4 =
  mask_key "pk_live_ZZZZ0000YYYY1111XXXX2222WWWW3456" 4.
Proof.
  apply mask_key_hides_the_rest; [lia | reflexivity | vm_compute; reflexivity
    | reflexivity].
Defined.

(** X22.  A key that is longer than the visible characters but not
    longer than the prefix and the visible characters together comes
    back unmasked: with the default of 4, every key of 5 to 7 characters
    is returned as it is. *)
Theorem mask_key_returns_short_keys key visible_chars :
  visible_chars < len key ≤ 3 + visible_chars →
  mask_key key visible_chars = key.
Proof.
  intros [Hgt Hle]. pose proof (len_nonneg key) as Hnn. unfold mask_key.
  destruct (decide (len key = 0)) as [H0|Hne].
  { rewrite truthy_str, bool_decide_eq_true_2 by done. simpl.
    destruct key; [done | discriminate]. }
  rewrite truthy_str, bool_decide_eq_false_2 by done. simpl negb. cbv iota.
  destruct (Z.leb_spec (len key) visible_chars); [lia|].
  destruct (Z.leb_spec (len key) (len PREFIX + visible_chars)) as [|Hlt];
    [done|]. change (len PREFIX) with 3 in Hlt. lia.
Qed.

Lemma mask_key_short_witness : mask_key "sk_abcd" 4 = "sk_abcd".
Proof. apply mask_key_returns_short_keys. unfold len. simpl. lia. Defined.

(** X23.  With no visible character asked for, the mask of a key longer
    than the prefix ends with the whole key: [key[-0:]] is the key
    itself, so the stars are followed by everything they were to hide. *)
Theorem mask_key_zero_visible_shows_key key :
  3 < len key →
  mask_key key 0 = "sk_" +:+ repeat_char "*" (len key - 3) +:+ key.
Proof.
  intros Hlen. rewrite mask_key_long by lia.
  rewrite Z.sub_0_r. do 2 f_equal.
  change (- 0) with 0. rewrite slice_from_drop by lia.
  apply string_of_list_ascii_of_string.
Qed.

Lemma mask_key_zero_visible_witness :
  mask_key "sk_abcdefgh" 0 = "sk_********sk_abcdefgh".
Proof.
  rewrite (mask_key_zero_visible_shows_key "sk_abcdefgh"); [reflexivity|].
  vm_compute. reflexivity.
Defined.

(** ** Batches *)

(** X24.  A batch holds as many keys as asked for, none when the count
    is zero or negative, and each of them is a generated key: its prefix
    and 32 characters of the charset, accepted by [validate_api_key]. *)
Theorem generated_batch count test draws :
  length (generate_batch count test draws) = Z.to_nat count ∧
  (count ≤ 0 → generate_batch count test draws = []) ∧
  Forall (λ key, ∃ j, key = generate test (draws j) ∧
                      validate_api_key (VStr key) = true)
         (generate_batch count test draws).
Proof.
  unfold generate_batch. split; [by rewrite length_map, length_seq|].
  split.
  - intros Hle. by replace (Z.to_nat count) with 0%nat by lia.
  - apply Forall_map, Forall_forall. intros j _. exists j. split; [done|].
    apply generated_key_validates.
Qed.

(** * The validators *)

Lemma lstrip_chars_nil l :
  lstrip_chars l = [] ↔ forallb isspace l = true.
Proof.
  induction l as [|c l IH]; simpl; [done|].
  destruct (isspace c); simpl; [done|]. split; discriminate.
Qed.

Lemma lstrip_chars_head l :
  forallb isspace l = false →
  ∃ c rest, lstrip_chars l = c :: rest ∧ isspace c = false.
Proof.
  induction l as [|c l IH]; simpl; [discriminate|].
  destruct (isspace c) eqn:Hc; simpl; [done | eauto].
Qed.

(** [s.strip()] is empty exactly when [s] is made of whitespace only. *)
Lemma strip_empty s :
  (strip s =? "")%string = forallb isspace (list_ascii_of_string s).
Proof.
  unfold strip.
  destruct (forallb isspace (list_ascii_of_string s)) eqn:Hall.
  - apply lstrip_chars_nil in Hall. by rewrite Hall.
  - apply lstrip_chars_head in Hall as (c & rest & -> & Hc).
    destruct (lstrip_chars_head (rev (c :: rest))) as (d & rest' & -> & _).
    { simpl. rewrite forallb_app. simpl. rewrite Hc.
      by rewrite andb_false_r. }
    simpl. by destruct (rev rest').
Qed.

Lemma validate_frontmatter_spec frontmatter :
  (validate_frontmatter frontmatter).1 = true ↔
  ∃ kvs title tags,
    frontmatter = VDict kvs ∧
    Forall (λ field, is_Some (dict_lookup kvs field)) required_fields ∧
    dict_lookup kvs "title" = Some (VStr title) ∧
    forallb isspace (list_ascii_of_string title) = false ∧
    dict_lookup kvs "tags" = Some (VList tags) ∧
    forallb isinstance_str tags = true.
Proof.
  split.
  - destruct frontmatter as [| | | | | |kvs]; try discriminate.
    unfold validate_frontmatter, required_fields.
    destruct (dict_lookup kvs "title") as [title|] eqn:Htitle;
    destruct (dict_lookup kvs "tags") as [tags|] eqn:Htags;
    destruct (dict_lookup kvs "category") as [category|] eqn:Hcat;
    destruct (dict_lookup kvs "difficulty") as [difficulty|] eqn:Hdiff;
    destruct (dict_lookup kvs "author") as [author|] eqn:Hauth;
      cbn; rewrite ?Htitle, ?Htags, ?Hcat, ?Hdiff, ?Hauth; cbn;
      try discriminate.
    destruct title as [| | |title| | |]; try discriminate.
    rewrite strip_empty, negb_involutive.
    destruct (forallb isspace (list_ascii_of_string title)) eqn:Hblank;
      [discriminate|].
    destruct tags as [| | | | |tags|]; try discriminate.
    destruct (forallb isinstance_str tags) eqn:Hstr; [|discriminate].
    intros _. exists kvs, title, tags. repeat split; try done.
    repeat constructor; rewrite ?Htitle, ?Htags, ?Hcat, ?Hdiff, ?Hauth; eauto.
  - intros (kvs & title & tags & -> & Hreq & Htitle & Hblank & Htags & Hstr).
    unfold required_fields in Hreq. rewrite !Forall_cons in Hreq.
    destruct Hreq as (_ & _ & [c Hc] & [d Hd] & [a Ha] & _).
    unfold validate_frontmatter, required_fields. cbn.
    rewrite Htitle, Htags, Hc, Hd, Ha. cbn.
    by rewrite strip_empty, Hblank, Hstr.
Qed.

(** X25.  [validate_frontmatter] accepts exactly the dictionaries that
    have the five required keys, a title that is a string with a
    character other than whitespace, and tags that are a list of strings.
    Category, difficulty and author need only be present: their values
    are not looked at. *)
Theorem validate_frontmatter_accepts frontmatter :
  (validate_frontmatter frontmatter).1 = true ↔
  ∃ kvs title tags,
    frontmatter = VDict kvs ∧
    Forall (λ field, is_Some (dict_lookup kvs field))
           ["title"; "tags"; "category"; "difficulty"; "author"] ∧
    dict_lookup kvs "title" = Some (VStr title) ∧
    forallb isspace (list_ascii_of_string title) = false ∧
    dict_lookup kvs "tags" = Some (VList tags) ∧
    forallb isinstance_str tags = true.
Proof. exact (validate_frontmatter_spec frontmatter). Qed.

(** X26.  The message of [validate_frontmatter] is empty exactly when
    the frontmatter is accepted: every rejection comes with a text, and
    an acceptance never does. *)
Theorem validate_frontmatter_message frontmatter :
  (validate_frontmatter frontmatter).1 = true ↔
  (validate_frontmatter frontmatter).2 = "".
Proof.
  unfold validate_frontmatter.
  destruct frontmatter as [| | | | | |kvs]; try (by split).
  destruct (negb (bool_decide (filter _ required_fields = [])));
    [by split|].
  destruct (match dict_lookup kvs "title" with
            | Some (VStr title) => negb (truthy (VStr (strip title)))
            | _ => true
            end); [by split|].
  destruct (dict_lookup kvs "tags") as [[| | | | |tags|]|]; try (by split).
  by destruct (negb (forallb isinstance_str tags)).
Qed.

(** [validate_frontmatter] looks for missing keys before it looks at
    any value: when required keys are missing the message lists
    exactly the missing ones, in the order title, tags, category,
    difficulty, author, whatever the values of the keys that are
    there. *)
Theorem validate_frontmatter_lists_missing kvs missing :
  missing = filter (λ field, dict_lookup kvs field = None) required_fields →
  missing ≠ [] →
  validate_frontmatter (VDict kvs) =
    (false, "Missing required fields: " +:+ join ", " missing).
Proof.
  intros -> Hne. unfold validate_frontmatter.
  by rewrite bool_decide_eq_false_2.
Qed.

Lemma validate_frontmatter_lists_missing_witness :
  validate_frontmatter demo_frontmatter =
    (false, "Missing required fields: category, difficulty, author").
Proof.
  apply (validate_frontmatter_lists_missing
           [("title", VStr "Test"); ("tags", VList [VStr "bug-bounty"])]
           ["category"; "difficulty"; "author"]);
    [reflexivity | discriminate].
Defined.
